(** * ProkaryoteAssembly: file discovery, sample identifiers and read pairing

    A shallow embedding of [ProkaryoteAssembly/prokaryote_assemble_dir.py]:
    [retrieve_fastqgz], [retrieve_sampleids], [get_readpair] and the
    [assemble_dir] loop, together with the part of the Python standard
    library they call ([str.split], [in] on strings, [Path.glob],
    [os.makedirs]). *)

From Stdlib Require Import String Ascii List Bool Lia.
From stdpp Require Import gmap strings list fin_maps.

#[local] Arguments String.append !s1 s2 : simpl nomatch.

(** ** Strings *)

Module Str.

(** [sub in s] on Python strings. *)
Fixpoint contains (sub s : string) : bool :=
  String.prefix sub s
  || match s with
     | EmptyString => false
     | String _ s' => contains sub s'
     end.

(** [s.split(sep)] for a separator of one character: the pieces between
    the separators, in order; never an empty list. *)
Fixpoint split (sep : ascii) (s : string) : list string :=
  match s with
  | EmptyString => [EmptyString]
  | String c s' =>
      if Ascii.eqb c sep then EmptyString :: split sep s'
      else match split sep s' with
           | [] => [String c EmptyString]
           | piece :: pieces => String c piece :: pieces
           end
  end.

(** Whether a character occurs in a string. *)
Fixpoint has_char (c : ascii) (s : string) : bool :=
  match s with
  | EmptyString => false
  | String d s' => Ascii.eqb d c || has_char c s'
  end.

(** [fnmatch.fnmatchcase(s, pat)] for patterns made of literal
    characters, [*] and [?] (no bracket classes): [*] stands for any run
    of characters, [?] for any one character.  The match is on the whole
    name and is case-sensitive, as it is for a POSIX path. *)
Fixpoint fnmatch (pat : string) : string -> bool :=
  match pat with
  | EmptyString =>
      fun s => match s with EmptyString => true | String _ _ => false end
  | String c pat' =>
      if Ascii.eqb c "*" then
        fix star (s : string) : bool :=
          fnmatch pat' s
          || match s with
             | EmptyString => false
             | String _ s' => star s'
             end
      else if Ascii.eqb c "?" then
        fun s => match s with
                 | EmptyString => false
                 | String _ s' => fnmatch pat' s'
                 end
      else
        fun s => match s with
                 | EmptyString => false
                 | String d s' => Ascii.eqb c d && fnmatch pat' s'
                 end
  end.

End Str.

(** ** Paths

    A [pathlib.Path] is kept as its components, innermost first, so that
    the head of the list is [Path.name] and the tail is [Path.parent]. *)

Abbreviation Path := (list string).

Definition name (p : Path) : string := hd EmptyString p.
Definition parent (p : Path) : Path := tl p.

(** [p / s] for a single segment [s]: pathlib drops an empty segment and a
    [.] segment. *)
Definition joinpath (p : Path) (s : string) : Path :=
  if String.eqb s EmptyString || String.eqb s "." then p else s :: p.

(** ** SampleIdentifier *)

(** [f.name.split('_')[0]] *)
Definition sample_id_of (f : Path) : string :=
  hd EmptyString (Str.split "_" (name f)).

(** Body of [retrieve_sampleids] up to the de-duplication. *)
Definition sample_id_list (fastq_file_list : list Path) : list string :=
  map sample_id_of fastq_file_list.

(** [retrieve_sampleids]: [list(set(sample_id_list))].  Python leaves the
    order of a set unspecified; here it is the order of [elements]. *)
Definition retrieve_sampleids (fastq_file_list : list Path) : list string :=
  elements (list_to_set (sample_id_list fastq_file_list) : gset string).

(** ** ReadPairer *)

(** One turn of the [for f in fastq_file_list] loop of [get_readpair] on
    the two slots [(r1, r2)]. *)
Definition readpair_step (sample_id forward_id reverse_id : string)
    (slots : option Path * option Path) (f : Path) : option Path * option Path :=
  let '(r1, r2) := slots in
  if Str.contains sample_id (name f) then
    if Str.contains forward_id (name f) then (Some f, r2)
    else if Str.contains reverse_id (name f) then (r1, Some f)
    else (r1, r2)
  else (r1, r2).

(** The whole loop, from given slots. *)
Definition readpair_scan_from (sample_id forward_id reverse_id : string)
    (slots : option Path * option Path) (fastq_file_list : list Path)
    : option Path * option Path :=
  fold_left (readpair_step sample_id forward_id reverse_id) fastq_file_list slots.

(** The loop from [r1, r2 = None, None]. *)
Definition readpair_scan (sample_id : string) (fastq_file_list : list Path)
    (forward_id reverse_id : string) : option Path * option Path :=
  readpair_scan_from sample_id forward_id reverse_id (None, None) fastq_file_list.

(** ** The filesystem

    A map from paths to the kind of entry found there.  The path with no
    component is the directory the relative paths start from; it always
    exists. *)

Inductive node := File | Dir.

Abbreviation FS := (gmap Path node).

Definition node_at (fs : FS) (p : Path) : option node :=
  match p with
  | [] => Some Dir
  | _ :: _ => fs !! p
  end.

Definition path_exists (fs : FS) (p : Path) : bool :=
  match node_at fs p with Some _ => true | None => false end.

Definition is_dir (fs : FS) (p : Path) : bool :=
  match node_at fs p with Some Dir => true | _ => false end.

(** Every entry sits in a directory. *)
Definition wf_fs (fs : FS) : Prop :=
  forall (p : Path), is_Some (node_at fs p) -> node_at fs (parent p) = Some Dir.

(** Exceptions the embedded code can raise. *)
Inductive exn :=
| TypeError
| FileExistsError
| FileNotFoundError
| NotADirectoryError
| ExternalError (msg : string).

(** [os.mkdir(p)] *)
Definition mkdir (p : Path) (fs : FS) : exn + FS :=
  match node_at fs p with
  | Some _ => inl FileExistsError
  | None =>
      match node_at fs (parent p) with
      | Some Dir => inr (<[p := Dir]> fs)
      | Some File => inl NotADirectoryError
      | None => inl FileNotFoundError
      end
  end.

(** The [try: mkdir(name) except OSError: ...] of [os.makedirs] with
    [exist_ok=True]: the error is dropped when [name] is a directory. *)
Definition mkdir_exist_ok (p : Path) (fs : FS) : exn + FS :=
  match mkdir p fs with
  | inr fs' => inr fs'
  | inl e => if is_dir fs p then inr fs else inl e
  end.

(** [os.makedirs(p, exist_ok=True)]: the missing ancestors are made first
    (a [FileExistsError] from that recursive call is passed over), then
    the directory itself. *)
Fixpoint makedirs (p : Path) (fs : FS) : exn + FS :=
  match p with
  | [] => mkdir_exist_ok p fs
  | _ :: head =>
      match head with
      | [] => mkdir_exist_ok p fs
      | _ :: _ =>
          if path_exists fs head then mkdir_exist_ok p fs
          else match makedirs head fs with
               | inr fs' => mkdir_exist_ok p fs'
               | inl FileExistsError => mkdir_exist_ok p fs
               | inl e => inl e
               end
      end
  end.

(** [os.scandir(d)]: the entries directly inside [d], files and
    directories alike, in the order of the map. *)
Definition scandir (fs : FS) (d : Path) : list Path :=
  filter (fun p : Path => p <> [] /\ parent p = d) (elements (dom fs)).

(** [d.glob(pat)] for a pattern of one segment: nothing when [d] is not a
    directory, otherwise the entries of [d] whose name matches. *)
Definition glob (fs : FS) (d : Path) (pat : string) : list Path :=
  if is_dir fs d
  then filter (fun p : Path => Str.fnmatch pat (name p) = true) (scandir fs d)
  else [].

(** ** FileScanner *)

Definition retrieve_fastqgz (fs : FS) (directory : Path) : list Path :=
  glob fs directory "*.f*q*".

(** ** Effects of the orchestrator

    The run threads the filesystem and a trace of what was logged and
    which collaborators were called.  A computation returns a value or
    raises, and keeps the state it reached in both cases. *)

(** The [logging.info] / [logger.info] lines of the module, by format
    string. *)
Inductive log_msg :=
| CreatedOutputDirectory (out_dir : Path)
| FindingFastqFiles (input_dir : Path)
| FindingSampleIDs
| FoundUniqueSampleIDs (n : nat)
| CouldNotPair (sample_id : string)
| PipelineComplete (out_dir : Path).

Inductive event :=
| Info (m : log_msg)
| PipelineCall (fwd_reads rev_reads out_dir : Path) (sample_id : string)
| CleanUpCall (input_dir : Path).

Record world := World { fs : FS; trace : list event }.

Inductive outcome (A : Type) :=
| Returned (a : A) (w : world)
| Raised (e : exn) (w : world).
Arguments Returned {A} a w.
Arguments Raised {A} e w.

Definition M (A : Type) : Type := world -> outcome A.

Definition ret {A} (a : A) : M A := fun w => Returned a w.
Definition raise {A} (e : exn) : M A := fun w => Raised e w.
Definition bind {A B} (m : M A) (k : A -> M B) : M B :=
  fun w => match m w with
           | Returned a w' => k a w'
           | Raised e w' => Raised e w'
           end.

Notation "x <- m ;; k" := (bind m (fun x => k))
  (at level 100, m at next level, right associativity).
Notation "m ;;; k" := (bind m (fun _ => k))
  (at level 100, right associativity).

Definition emit (ev : event) : M unit :=
  fun w => Returned tt (World (fs w) (trace w ++ [ev])).

Definition logging_info (m : log_msg) : M unit := emit (Info m).

Definition read_fs : M FS := fun w => Returned (fs w) w.

(** Lift an operation on the filesystem. *)
Definition on_fs (op : FS -> exn + FS) : M unit :=
  fun w => match op (fs w) with
           | inr fs' => Returned tt (World fs' (trace w))
           | inl e => Raised e w
           end.

Definition os_makedirs (p : Path) : M unit := on_fs (makedirs p).

(** A Python [for] loop over a list. *)
Fixpoint for_each {A} (xs : list A) (body : A -> M unit) : M unit :=
  match xs with
  | [] => ret tt
  | x :: xs' => body x ;;; for_each xs' body
  end.

(** [get_readpair]: the pair when both slots are filled, otherwise the
    log line and [None]. *)
Definition get_readpair (sample_id : string) (fastq_file_list : list Path)
    (forward_id reverse_id : string) : M (option (Path * Path)) :=
  match readpair_scan sample_id fastq_file_list forward_id reverse_id with
  | (Some r1, Some r2) => ret (Some (r1, r2))
  | _ => logging_info (CouldNotPair sample_id) ;;; ret None
  end.

(** [r1, r2 = value]: unpacking [None] raises [TypeError]. *)
Definition unpack_pair (value : option (Path * Path)) : M (Path * Path) :=
  match value with
  | Some pr => ret pr
  | None => raise TypeError
  end.

(** ** BatchOrchestrator *)

Section Orchestrator.

(** The collaborators imported from [ProkaryoteAssembly.prokaryote_assemble];
    each works on the filesystem and may raise. *)
Variable assembly_pipeline : Path -> Path -> Path -> string -> FS -> exn + FS.
Variable clean_up : Path -> FS -> exn + FS.

Definition call_assembly_pipeline (fwd_reads rev_reads out_dir : Path)
    (sample_id : string) : M unit :=
  emit (PipelineCall fwd_reads rev_reads out_dir sample_id) ;;;
  on_fs (assembly_pipeline fwd_reads rev_reads out_dir sample_id).

Definition call_clean_up (input_dir : Path) : M unit :=
  emit (CleanUpCall input_dir) ;;; on_fs (clean_up input_dir).

(** Body of the [for sample_id in sample_ids] loop. *)
Definition process_sample (fastq_file_list : list Path) (out_dir : Path)
    (fwd_id rev_id : string) (sample_id : string) : M unit :=
  pair <- get_readpair sample_id fastq_file_list fwd_id rev_id ;;
  r <- unpack_pair pair ;;
  let sample_out_dir := joinpath out_dir sample_id in
  os_makedirs sample_out_dir ;;;
  call_assembly_pipeline (fst r) (snd r) sample_out_dir sample_id ;;;
  call_clean_up sample_out_dir.

Definition assemble_dir (input_dir out_dir : Path) (fwd_id rev_id : string)
    : M unit :=
  os_makedirs out_dir ;;;
  logging_info (CreatedOutputDirectory out_dir) ;;;
  logging_info (FindingFastqFiles input_dir) ;;;
  files <- read_fs ;;
  let fastq_file_list := retrieve_fastqgz files input_dir in
  logging_info FindingSampleIDs ;;;
  let sample_ids := retrieve_sampleids fastq_file_list in
  logging_info (FoundUniqueSampleIDs (length sample_ids)) ;;;
  for_each sample_ids
    (process_sample fastq_file_list out_dir fwd_id rev_id) ;;;
  logging_info (PipelineComplete out_dir).

End Orchestrator.

(** The four log lines of [assemble_dir] that precede the loop. *)
Definition preamble (input_dir out_dir : Path) (n : nat) : list event :=
  [ Info (CreatedOutputDirectory out_dir); Info (FindingFastqFiles input_dir);
    Info FindingSampleIDs; Info (FoundUniqueSampleIDs n) ].

(** Collaborators that do nothing, for running the loop on examples. *)
Definition idle_pipeline (_ _ _ : Path) (_ : string) (files : FS) : exn + FS :=
  inr files.
Definition idle_clean_up (_ : Path) (files : FS) : exn + FS := inr files.

Definition fs_of_list (l : list (Path * node)) : FS := list_to_map l.

Definition demo_fs : FS :=
  fs_of_list [ (["in"], Dir);
               (["S1_R1.fastq.gz"; "in"], File);
               (["S1_R2.fastq.gz"; "in"], File);
               (["S2_R1.fastq.gz"; "in"], File) ].

(** ** Vocabulary of the statements *)

(** A file fills the forward slot of [sample_id]: the two [if] tests of
    [get_readpair] hold. *)
Definition fills_forward (sample_id forward_id : string) (f : Path) : bool :=
  Str.contains sample_id (name f) && Str.contains forward_id (name f).

(** A file fills the reverse slot: it reaches the [elif] and passes it. *)
Definition fills_reverse (sample_id forward_id reverse_id : string) (f : Path)
    : bool :=
  Str.contains sample_id (name f)
  && negb (Str.contains forward_id (name f))
  && Str.contains reverse_id (name f).

(** A file names a slot: its name holds the sample identifier and the
    marker of the slot. *)
Definition names_slot (sample_id marker : string) (f : Path) : bool :=
  Str.contains sample_id (name f) && Str.contains marker (name f).

(** [f] is the last file of [l] that satisfies [P]. *)
Definition last_such (P : Path -> bool) (l : list Path) (f : Path) : Prop :=
  exists pre post,
    l = pre ++ f :: post /\ P f = true /\
    forall g, In g post -> P g = false.

(** The slot left by a loop that overwrites it at every file satisfying
    [P]. *)
Definition pick (P : Path -> bool) (slot : option Path) (l : list Path)
    : option Path :=
  fold_left (fun acc f => if P f then Some f else acc) l slot.

(** The invariant of a read pair. *)
Definition valid_readpair (sample_id forward_id reverse_id : string)
    (l : list Path) (r1 r2 : Path) : Prop :=
  In r1 l /\ In r2 l /\
  Str.contains sample_id (name r1) = true /\
  Str.contains sample_id (name r2) = true /\
  Str.contains forward_id (name r1) = true /\
  Str.contains reverse_id (name r2) = true.

(** A read-file name the way the specification words it: an [f], later a
    [q]. *)
Definition spec_read_file_name (s : string) : Prop :=
  exists a b c, s = a +:+ "f" +:+ b +:+ "q" +:+ c.

(** Executable form of [wf_fs]. *)
Definition wf_fsb (fs : FS) : bool :=
  forallb (fun p : Path => is_dir fs (parent p)) (elements (dom fs)).

(** The files [{id}_R1...] and [{id}_R2...] of a list of identifiers in a
    directory, with the rest of each name given by [tail1] and [tail2]. *)
Definition paired_files (dir : Path) (ids : list string)
    (tail1 tail2 : string -> string) : list Path :=
  flat_map (fun id => [ (id +:+ "_R1" +:+ tail1 id) :: dir;
                        (id +:+ "_R2" +:+ tail2 id) :: dir ]) ids.

(** ** Inputs used in the examples *)

(** Two files that both hold the reverse marker; the second also holds the
    forward marker. *)
Definition overlapping_files : list Path :=
  [ ["S1_R2.fq"; "in"]; ["S1_R1_R2.fq"; "in"] ].

(** Two files that both hold the forward marker; the second also holds the
    reverse marker. *)
Definition forward_only_files : list Path :=
  [ ["S1_R1.fq"; "in"]; ["S1_R1_R2.fq"; "in"] ].

(** Two forward and two reverse files of one sample. *)
Definition repeated_files : list Path :=
  [ ["S1_L001_R1.fq"; "in"]; ["S1_L001_R2.fq"; "in"];
    ["S1_L002_R1.fq"; "in"]; ["S1_L002_R2.fq"; "in"] ].

(** Identifiers with an underscore inside. *)
Definition underscore_ids : list string := ["A_1"; "A_2"].

Definition plain_ids : list string := ["S1"; "S2"].

Definition fq_tail (_ : string) : string := ".fq".
Definition forward_again_tail (_ : string) : string := "_R1.fq".

(** An input directory with a file whose name holds an [f] and a [q] but
    no extension. *)
Definition no_extension_fs : FS :=
  fs_of_list [ (["in"], Dir); (["S1_R1_fastq"; "in"], File) ].

(** An input directory with a lower-case name, an upper-case name, a
    matching sub-directory and a file one level down. *)
Definition mixed_fs : FS :=
  fs_of_list [ (["in"], Dir);
               (["S1_R1.fastq.gz"; "in"], File);
               (["S1_R2.FASTQ.GZ"; "in"], File);
               (["old.fq"; "in"], Dir);
               (["S9_R1.fq"; "old.fq"; "in"], File) ].

Definition empty_world : world := World ∅ [].

(** ** Decidable equality of the states

    Used to settle equalities between concrete filesystems and runs by
    computation. *)

#[global] Instance node_eq_dec : EqDecision node.
Proof. solve_decision. Defined.

#[global] Instance exn_eq_dec : EqDecision exn.
Proof. solve_decision. Defined.

#[global] Instance log_msg_eq_dec : EqDecision log_msg.
Proof. solve_decision. Defined.

#[global] Instance event_eq_dec : EqDecision event.
Proof. solve_decision. Defined.

#[global] Instance world_eq_dec : EqDecision world.
Proof. solve_decision. Defined.

#[global] Instance outcome_eq_dec {A} `{EqDecision A} : EqDecision (outcome A).
Proof. solve_decision. Defined.

(** Closes a decidable goal between closed terms by evaluating its
    decision procedure. *)
Ltac by_evaluation := apply (bool_decide_unpack _); vm_compute; reflexivity.

(** ** Vocabulary of the further properties *)

(** What a completed turn of the loop adds to the trace for a sample. *)
Definition sample_events (fastq_file_list : list Path) (out_dir : Path)
    (fwd_id rev_id sample_id : string) : list event :=
  match readpair_scan sample_id fastq_file_list fwd_id rev_id with
  | (Some r1, Some r2) =>
      [ PipelineCall r1 r2 (joinpath out_dir sample_id) sample_id;
        CleanUpCall (joinpath out_dir sample_id) ]
  | _ => []
  end.

(** At most one file of [l] satisfies [P]. *)
Definition at_most_one (P : Path -> bool) (l : list Path) : Prop :=
  forall f g, In f l -> In g l -> P f = true -> P g = true -> f = g.

(** An input directory with one complete sample. *)
Definition paired_fs : FS :=
  fs_of_list [ (["in"], Dir);
               (["S1_R1.fq"; "in"], File);
               (["S1_R2.fq"; "in"], File) ].

(** A filesystem in which the output root is a regular file. *)
Definition out_is_file_fs : FS :=
  fs_of_list [ (["in"], Dir); (["out"], File) ].

(** A pipeline that always fails. *)
Definition failing_pipeline (_ _ _ : Path) (_ : string) (_ : FS) : exn + FS :=
  inl (ExternalError "assembly failed").

(** The shape of a completed run started in [w] and ended in [w']: the
    output root was made, and the trace grew by the four opening lines,
    the two collaborator calls of every sample in turn, and the closing
    line; every sample had a valid pair. *)
Definition completed_run (input_dir out_dir : Path) (fwd_id rev_id : string)
    (w w' : world) : Prop :=
  exists files,
    makedirs out_dir (fs w) = inr files /\
    trace w' =
      trace w
      ++ preamble input_dir out_dir
           (length (retrieve_sampleids (retrieve_fastqgz files input_dir)))
      ++ flat_map
           (sample_events (retrieve_fastqgz files input_dir) out_dir fwd_id rev_id)
           (retrieve_sampleids (retrieve_fastqgz files input_dir))
      ++ [Info (PipelineComplete out_dir)] /\
    forall sample_id,
      In sample_id (retrieve_sampleids (retrieve_fastqgz files input_dir)) ->
      exists r1 r2,
        readpair_scan sample_id (retrieve_fastqgz files input_dir) fwd_id rev_id
          = (Some r1, Some r2) /\
        valid_readpair sample_id fwd_id rev_id
          (retrieve_fastqgz files input_dir) r1 r2.

(** An input directory without any read file. *)
Definition no_reads_fs : FS :=
  fs_of_list [ (["in"], Dir); (["notes.txt"; "in"], File) ].

(** ** Facts about strings *)

Module StrFacts.
Import Str.

Lemma append_nil_r (s : string) : s +:+ EmptyString = s.
Proof. induction s as [|c s IH]; simpl; [reflexivity | now rewrite IH]. Qed.

Lemma append_assoc (a b c : string) : (a +:+ b) +:+ c = a +:+ b +:+ c.
Proof. induction a as [|x a IH]; simpl; [reflexivity | now rewrite IH]. Qed.

Lemma prefix_spec (a s : string) :
  String.prefix a s = true <-> exists b, s = a +:+ b.
Proof.
  revert a. induction s as [|y s IH]; intros [|x a]; simpl.
  - split; [intros _; now exists EmptyString | reflexivity].
  - split; [discriminate | intros [b Hb]; discriminate].
  - split; [intros _; now exists (String y s) | reflexivity].
  - destruct (ascii_dec x y) as [->|Hne].
    + rewrite IH. split; intros [b Hb]; exists b; congruence.
    + split; [discriminate | intros [b Hb]; congruence].
Qed.

(** [contains] is the substring test. *)
Lemma contains_spec (sub s : string) :
  contains sub s = true <-> exists a b, s = a +:+ sub +:+ b.
Proof.
  induction s as [|c s IH].
  - destruct sub as [|x sub]; simpl.
    + split; [intros _; now exists EmptyString, EmptyString | reflexivity].
    + split; [discriminate |].
      intros [a [b H]]. destruct a; discriminate.
  - cbn [contains]. rewrite orb_true_iff, prefix_spec, IH. split.
    + intros [[b Hb]|[a [b Hab]]]; [now exists EmptyString, b |].
      exists (String c a), b. simpl. now rewrite Hab.
    + intros [a [b H]]. destruct a as [|x a]; simpl in H.
      * left. now exists b.
      * right. exists a, b. congruence.
Qed.

Lemma contains_app (sub a b : string) :
  contains sub (a +:+ sub +:+ b) = true.
Proof. apply contains_spec. now exists a, b. Qed.

Lemma contains_empty (s : string) : contains EmptyString s = true.
Proof. apply contains_spec. now exists EmptyString, s. Qed.

Lemma split_nonempty (sep : ascii) (s : string) : split sep s <> [].
Proof.
  induction s as [|c s IH]; simpl; [discriminate |].
  destruct (Ascii.eqb c sep); [discriminate |].
  destruct (split sep s); [contradiction | discriminate].
Qed.

(** The first piece of a string without separator is the string. *)
Lemma split_no_sep (sep : ascii) (s : string) :
  has_char sep s = false -> split sep s = [s].
Proof.
  induction s as [|c s IH]; simpl; [reflexivity |].
  intros H. apply orb_false_iff in H as [Hc Hs].
  rewrite Hc, (IH Hs). reflexivity.
Qed.

(** The first piece stops at the first separator. *)
Lemma split_hd_first_sep (sep : ascii) (pre rest : string) :
  has_char sep pre = false ->
  hd EmptyString (split sep (pre +:+ String sep rest)) = pre.
Proof.
  induction pre as [|c pre IH]; simpl; intros H.
  - now rewrite Ascii.eqb_refl.
  - apply orb_false_iff in H as [Hc Hs]. rewrite Hc.
    specialize (IH Hs).
    destruct (split sep (pre +:+ String sep rest)) as [|piece pieces] eqn:E.
    + now apply split_nonempty in E.
    + simpl in *. now rewrite IH.
Qed.

(** The first piece never holds a separator. *)
Lemma split_hd_no_sep (sep : ascii) (s : string) :
  has_char sep (hd EmptyString (split sep s)) = false.
Proof.
  induction s as [|c s IH]; simpl; [reflexivity |].
  destruct (Ascii.eqb c sep) eqn:Hc; [reflexivity |].
  destruct (split sep s) as [|piece pieces]; simpl in *; now rewrite Hc.
Qed.

(** A pattern that starts with [*]. *)
Lemma fnmatch_star (pat s : string) :
  fnmatch (String "*" pat) s = true <->
  exists a b, s = a +:+ b /\ fnmatch pat b = true.
Proof.
  change (fnmatch (String "*" pat)) with
    (fix star (s : string) : bool :=
       fnmatch pat s
       || match s with EmptyString => false | String _ s' => star s' end).
  induction s as [|c s IH]; rewrite orb_true_iff.
  - split.
    + intros [H|H]; [now exists EmptyString, EmptyString | discriminate].
    + intros [a [b [E H]]]. left.
      destruct a; [simpl in E; now subst | discriminate].
  - rewrite IH. split.
    + intros [H|[a [b [E H]]]]; [now exists EmptyString, (String c s) |].
      exists (String c a), b. simpl. now rewrite E.
    + intros [a [b [E H]]]. destruct a as [|x a]; simpl in E.
      * left. now subst.
      * right. exists a, b. split; congruence.
Qed.

(** A pattern that starts with a literal character. *)
Lemma fnmatch_literal (c : ascii) (pat s : string) :
  Ascii.eqb c "*" = false -> Ascii.eqb c "?" = false ->
  fnmatch (String c pat) s = true <->
  exists s', s = String c s' /\ fnmatch pat s' = true.
Proof.
  intros H1 H2. simpl. rewrite H1, H2. destruct s as [|d s].
  - split; [discriminate | intros [s' [E _]]; discriminate].
  - rewrite andb_true_iff, Ascii.eqb_eq. split.
    + intros [-> H]. now exists s.
    + intros [s' [E H]]. injection E as -> ->. now split.
Qed.

(** The pattern of [retrieve_fastqgz]: a dot and an [f], later a [q]. *)
Lemma fnmatch_fastq_glob (s : string) :
  fnmatch "*.f*q*" s = true <->
  exists a b c, s = a +:+ ".f" +:+ b +:+ "q" +:+ c.
Proof.
  rewrite fnmatch_star. split.
  - intros [a [t [-> H]]].
    apply fnmatch_literal in H as [t1 [-> H]]; [|reflexivity..].
    apply fnmatch_literal in H as [t2 [-> H]]; [|reflexivity..].
    apply fnmatch_star in H as [b [t3 [-> H]]].
    apply fnmatch_literal in H as [c [-> H]]; [|reflexivity..].
    now exists a, b, c.
  - intros [a [b [c ->]]]. exists a, (".f" +:+ b +:+ "q" +:+ c). split; [reflexivity|].
    apply fnmatch_literal; [reflexivity..|]. eexists; split; [reflexivity|].
    apply fnmatch_literal; [reflexivity..|]. eexists; split; [reflexivity|].
    apply fnmatch_star. exists b, ("q" +:+ c). split; [reflexivity|].
    apply fnmatch_literal; [reflexivity..|]. exists c. split; [reflexivity|].
    apply fnmatch_star. exists c, EmptyString. split; [now rewrite append_nil_r | reflexivity].
Qed.

End StrFacts.

(** ** Facts about the pairing loop *)

Section PairingLoop.

Variables sample_id forward_id reverse_id : string.

Lemma pick_snoc (P : Path -> bool) (slot : option Path) (l : list Path) (f : Path) :
  pick P slot (l ++ [f]) = if P f then Some f else pick P slot l.
Proof. unfold pick. now rewrite fold_left_app. Qed.

Lemma pick_app (P : Path -> bool) (slot : option Path) (l1 l2 : list Path) :
  pick P slot (l1 ++ l2) = pick P (pick P slot l1) l2.
Proof. unfold pick. now rewrite fold_left_app. Qed.

Lemma pick_none_after (P : Path -> bool) (slot : option Path) (l : list Path) :
  (forall g, In g l -> P g = false) -> pick P slot l = slot.
Proof.
  revert slot. induction l as [|g l IH]; intros slot H; [reflexivity |].
  unfold pick. simpl. rewrite (H g) by now left.
  apply IH. intros g' Hg'. apply H. now right.
Qed.

(** The slot ends on the last file that satisfies the test. *)
Lemma pick_last (P : Path -> bool) (slot : option Path) (l : list Path) (f : Path) :
  last_such P l f -> pick P slot l = Some f.
Proof.
  intros (pre & post & -> & Hf & Hpost).
  rewrite pick_app. change (f :: post) with ([f] ++ post).
  rewrite pick_app, (pick_none_after _ _ post Hpost).
  unfold pick. simpl. now rewrite Hf.
Qed.

(** A filled slot holds the last file that satisfies the test. *)
Lemma pick_some (P : Path -> bool) (l : list Path) (f : Path) :
  pick P None l = Some f -> last_such P l f.
Proof.
  induction l as [|g l IH] using rev_ind; [discriminate |].
  rewrite pick_snoc. destruct (P g) eqn:Hg.
  - intros [= ->]. exists l, []. repeat split; [assumption | intros ? []].
  - intros H. destruct (IH H) as (pre & post & -> & Hf & Hpost).
    exists pre, (post ++ [g]). rewrite <- app_assoc. repeat split; [assumption |].
    intros g' Hg'. apply in_app_or in Hg' as [Hg'|[<-|[]]]; auto.
Qed.

Lemma pick_is_some (P : Path -> bool) (l : list Path) :
  (exists f, In f l /\ P f = true) -> exists g, pick P None l = Some g.
Proof.
  induction l as [|g l IH] using rev_ind; intros (f & Hin & Hf); [destruct Hin |].
  rewrite pick_snoc. destruct (P g) eqn:Hg; [now exists g |].
  apply IH. apply in_app_or in Hin as [Hin|[<-|[]]]; [now exists f | congruence].
Qed.

Lemma pick_none (P : Path -> bool) (l : list Path) :
  pick P None l = None <-> forall f, In f l -> P f = false.
Proof.
  split.
  - intros H f Hin. destruct (P f) eqn:Hf; [|reflexivity].
    destruct (pick_is_some P l) as [g Hg]; [now exists f | congruence].
  - intros H. now apply pick_none_after.
Qed.

Lemma last_such_in (P : Path -> bool) (l : list Path) (f : Path) :
  last_such P l f -> In f l /\ P f = true.
Proof.
  intros (pre & post & -> & Hf & _). split; [|assumption].
  apply in_or_app. right. now left.
Qed.

(** One turn of the loop, slot by slot. *)
Lemma readpair_step_slots (r1 r2 : option Path) (f : Path) :
  readpair_step sample_id forward_id reverse_id (r1, r2) f =
  (if fills_forward sample_id forward_id f then Some f else r1,
   if fills_reverse sample_id forward_id reverse_id f then Some f else r2).
Proof.
  unfold readpair_step, fills_forward, fills_reverse.
  destruct (Str.contains sample_id (name f)),
           (Str.contains forward_id (name f)),
           (Str.contains reverse_id (name f)); reflexivity.
Qed.

(** The two slots of [get_readpair] evolve independently: the forward slot
    follows [fills_forward], the reverse slot [fills_reverse]. *)
Lemma readpair_scan_from_pick (r1 r2 : option Path) (l : list Path) :
  readpair_scan_from sample_id forward_id reverse_id (r1, r2) l =
  (pick (fills_forward sample_id forward_id) r1 l,
   pick (fills_reverse sample_id forward_id reverse_id) r2 l).
Proof.
  revert r1 r2. induction l as [|f l IH]; intros r1 r2; [reflexivity |].
  unfold readpair_scan_from, pick in *. cbn [fold_left].
  rewrite readpair_step_slots. apply IH.
Qed.

Lemma readpair_scan_pick (l : list Path) :
  readpair_scan sample_id l forward_id reverse_id =
  (pick (fills_forward sample_id forward_id) None l,
   pick (fills_reverse sample_id forward_id reverse_id) None l).
Proof. apply readpair_scan_from_pick. Qed.

Lemma fills_forward_spec (f : Path) :
  fills_forward sample_id forward_id f = true <->
  Str.contains sample_id (name f) = true /\
  Str.contains forward_id (name f) = true.
Proof. unfold fills_forward. apply andb_true_iff. Qed.

Lemma fills_reverse_spec (f : Path) :
  fills_reverse sample_id forward_id reverse_id f = true <->
  Str.contains sample_id (name f) = true /\
  Str.contains forward_id (name f) = false /\
  Str.contains reverse_id (name f) = true.
Proof.
  unfold fills_reverse. rewrite !andb_true_iff, negb_true_iff. tauto.
Qed.

End PairingLoop.

(** ** ReadPairer: what [get_readpair] returns *)

Lemma get_readpair_some (sample_id : string) (l : list Path)
    (forward_id reverse_id : string) (r1 r2 : Path) (w : world) :
  readpair_scan sample_id l forward_id reverse_id = (Some r1, Some r2) ->
  get_readpair sample_id l forward_id reverse_id w = Returned (Some (r1, r2)) w.
Proof. intros H. unfold get_readpair. now rewrite H. Qed.

Lemma get_readpair_none (sample_id : string) (l : list Path)
    (forward_id reverse_id : string) (w : world) :
  fst (readpair_scan sample_id l forward_id reverse_id) = None \/
  snd (readpair_scan sample_id l forward_id reverse_id) = None ->
  get_readpair sample_id l forward_id reverse_id w =
  Returned None (World (fs w) (trace w ++ [Info (CouldNotPair sample_id)])).
Proof.
  intros H. unfold get_readpair.
  destruct (readpair_scan sample_id l forward_id reverse_id) as [[r1|] [r2|]];
    simpl in H; try reflexivity; destruct H; discriminate.
Qed.

(** Whatever [get_readpair] returns as a pair is the content of the two
    slots. *)
Lemma get_readpair_inv (sample_id : string) (l : list Path)
    (forward_id reverse_id : string) (r1 r2 : Path) (w w' : world) :
  get_readpair sample_id l forward_id reverse_id w = Returned (Some (r1, r2)) w' ->
  readpair_scan sample_id l forward_id reverse_id = (Some r1, Some r2) /\ w' = w.
Proof.
  unfold get_readpair.
  destruct (readpair_scan sample_id l forward_id reverse_id) as [[a|] [b|]];
    cbn; intros H; try discriminate.
  now injection H as -> -> ->.
Qed.

(** C3 (amended): the forward slot ends on the last file whose name holds
    the sample identifier and the forward marker; the reverse slot ends on
    the last file whose name holds the sample identifier and the reverse
    marker and does not hold the forward marker; [get_readpair] returns
    exactly these two files. *)
Theorem C3_last_match_wins (sample_id : string) (l : list Path)
    (forward_id reverse_id : string) :
  (forall f, fst (readpair_scan sample_id l forward_id reverse_id) = Some f <->
             last_such (names_slot sample_id forward_id) l f) /\
  (forall f, snd (readpair_scan sample_id l forward_id reverse_id) = Some f <->
             last_such (fills_reverse sample_id forward_id reverse_id) l f) /\
  (forall r1 r2 w,
     get_readpair sample_id l forward_id reverse_id w = Returned (Some (r1, r2)) w <->
     last_such (names_slot sample_id forward_id) l r1 /\
     last_such (fills_reverse sample_id forward_id reverse_id) l r2).
Proof.
  change (names_slot sample_id forward_id)
    with (fills_forward sample_id forward_id).
  rewrite readpair_scan_pick. cbn [fst snd].
  assert (Hpick : forall P f, pick P None l = Some f <-> last_such P l f)
    by (intros P f; split; [apply pick_some | apply pick_last]).
  repeat split.
  - apply Hpick.
  - apply Hpick.
  - apply Hpick.
  - apply Hpick.
  - apply get_readpair_inv in H as [H _]. rewrite readpair_scan_pick in H.
    apply Hpick. congruence.
  - apply get_readpair_inv in H as [H _]. rewrite readpair_scan_pick in H.
    apply Hpick. congruence.
  - intros [H1 H2]. apply get_readpair_some. rewrite readpair_scan_pick.
    apply Hpick in H1, H2. now rewrite H1, H2.
Qed.

(** C3, as worded, fails for the reverse slot: the last file whose name
    holds the sample identifier and the reverse marker is passed over when
    its name also holds the forward marker. *)
Lemma C3_reverse_slot_counterexample :
  last_such (names_slot "S1" "_R2") overlapping_files ["S1_R1_R2.fq"; "in"] /\
  get_readpair "S1" overlapping_files "_R1" "_R2" empty_world =
    Returned (Some (["S1_R1_R2.fq"; "in"], ["S1_R2.fq"; "in"])) empty_world /\
  snd (readpair_scan "S1" overlapping_files "_R1" "_R2")
    <> Some ["S1_R1_R2.fq"; "in"].
Proof.
  split; [|split].
  - exists [["S1_R2.fq"; "in"]], []. repeat split. intros g [].
  - reflexivity.
  - vm_compute. discriminate.
Qed.

(** With several files per slot the later ones win. *)
Example get_readpair_repeated_files :
  get_readpair "S1" repeated_files "_R1" "_R2" empty_world =
  Returned (Some (["S1_L002_R1.fq"; "in"], ["S1_L002_R2.fq"; "in"])) empty_world.
Proof. reflexivity. Qed.

(** Two filled slots form a valid pair. *)
Lemma readpair_scan_valid (sample_id : string) (l : list Path)
    (forward_id reverse_id : string) (r1 r2 : Path) :
  readpair_scan sample_id l forward_id reverse_id = (Some r1, Some r2) ->
  valid_readpair sample_id forward_id reverse_id l r1 r2.
Proof.
  intros H. rewrite readpair_scan_pick in H. injection H as H1 H2.
  apply pick_some, last_such_in in H1 as [Hin1 Hf].
  apply pick_some, last_such_in in H2 as [Hin2 Hr].
  apply fills_forward_spec in Hf as [Hs1 Hm1].
  apply fills_reverse_spec in Hr as (Hs2 & _ & Hm2).
  unfold valid_readpair. tauto.
Qed.

(** Both slots are filled as soon as the collection holds a file for
    each. *)
Lemma readpair_scan_both (sample_id : string) (l : list Path)
    (forward_id reverse_id : string) (f g : Path) :
  In f l -> fills_forward sample_id forward_id f = true ->
  In g l -> fills_reverse sample_id forward_id reverse_id g = true ->
  exists r1 r2,
    readpair_scan sample_id l forward_id reverse_id = (Some r1, Some r2).
Proof.
  intros Hf Pf Hg Pg. rewrite readpair_scan_pick.
  destruct (pick_is_some (fills_forward sample_id forward_id) l) as [r1 ->];
    [now exists f |].
  destruct (pick_is_some (fills_reverse sample_id forward_id reverse_id) l)
    as [r2 ->]; [now exists g |].
  now exists r1, r2.
Qed.

(** C5 (amended): [get_readpair] returns a pair, and logs nothing,
    exactly when the collection holds a file whose name holds the sample
    identifier and the forward marker and a file whose name holds the
    sample identifier and the reverse marker but not the forward marker;
    in every other case it logs that the sample could not be paired and
    returns [None]; it never raises. *)
Theorem C5_pair_iff_both_slots_filled (sample_id : string) (l : list Path)
    (forward_id reverse_id : string) (w : world) :
  ((exists r1 r2,
      get_readpair sample_id l forward_id reverse_id w =
      Returned (Some (r1, r2)) w) <->
   (exists f, In f l /\ names_slot sample_id forward_id f = true) /\
   (exists g, In g l /\ fills_reverse sample_id forward_id reverse_id g = true)) /\
  (get_readpair sample_id l forward_id reverse_id w =
     Returned None (World (fs w) (trace w ++ [Info (CouldNotPair sample_id)])) <->
   ~ ((exists f, In f l /\ names_slot sample_id forward_id f = true) /\
      (exists g, In g l /\ fills_reverse sample_id forward_id reverse_id g = true))) /\
  (forall e w', get_readpair sample_id l forward_id reverse_id w <> Raised e w').
Proof.
  change (names_slot sample_id forward_id)
    with (fills_forward sample_id forward_id).
  assert (Hfilled : forall r1 r2,
    readpair_scan sample_id l forward_id reverse_id = (Some r1, Some r2) ->
    (exists f, In f l /\ fills_forward sample_id forward_id f = true) /\
    (exists g, In g l /\ fills_reverse sample_id forward_id reverse_id g = true)).
  { intros r1 r2 H. rewrite readpair_scan_pick in H. injection H as H1 H2.
    apply pick_some, last_such_in in H1. apply pick_some, last_such_in in H2.
    split; [now exists r1 | now exists r2]. }
  assert (Hboth :
    (exists f, In f l /\ fills_forward sample_id forward_id f = true) /\
    (exists g, In g l /\ fills_reverse sample_id forward_id reverse_id g = true) ->
    exists r1 r2,
      get_readpair sample_id l forward_id reverse_id w = Returned (Some (r1, r2)) w).
  { intros [(f & Hf & Pf) (g & Hg & Pg)].
    destruct (readpair_scan_both sample_id l forward_id reverse_id f g Hf Pf Hg Pg)
      as (r1 & r2 & H).
    exists r1, r2. now apply get_readpair_some. }
  split; [|split].
  - split; [|exact Hboth].
    intros (r1 & r2 & H). apply get_readpair_inv in H as [H _].
    now apply (Hfilled r1 r2).
  - split.
    + intros Hnone Hfiles. destruct (Hboth Hfiles) as (r1 & r2 & H).
      rewrite H in Hnone. discriminate.
    + intros Hnot. apply get_readpair_none.
      destruct (readpair_scan sample_id l forward_id reverse_id)
        as [[r1|] [r2|]] eqn:E; cbn [fst snd]; auto.
      exfalso. apply Hnot. now apply (Hfilled r1 r2).
  - intros e w' H. unfold get_readpair in H.
    destruct (readpair_scan sample_id l forward_id reverse_id) as [[r1|] [r2|]];
      discriminate.
Qed.

(** C5, as worded, fails: a file for the forward slot and a file whose
    name holds the sample identifier and the reverse marker are both in the
    collection, and no pair is returned, because that second file also
    holds the forward marker. *)
Lemma C5_reverse_file_with_forward_marker_counterexample :
  (exists f, In f forward_only_files /\ names_slot "S1" "_R1" f = true) /\
  (exists g, In g forward_only_files /\ names_slot "S1" "_R2" g = true) /\
  get_readpair "S1" forward_only_files "_R1" "_R2" empty_world =
    Returned None (World ∅ [Info (CouldNotPair "S1")]).
Proof.
  split; [|split].
  - exists ["S1_R1.fq"; "in"]. split; [now left | reflexivity].
  - exists ["S1_R1_R2.fq"; "in"]. split; [right; now left | reflexivity].
  - reflexivity.
Qed.

(** C6: a pair returned by [get_readpair] is made of the two filled slots;
    both files come from the collection, both names hold the sample
    identifier, the first name holds the forward marker and the second the
    reverse marker. *)
Theorem C6_returned_pair_is_valid (sample_id : string) (l : list Path)
    (forward_id reverse_id : string) (r1 r2 : Path) (w w' : world) :
  get_readpair sample_id l forward_id reverse_id w = Returned (Some (r1, r2)) w' ->
  valid_readpair sample_id forward_id reverse_id l r1 r2 /\
  readpair_scan sample_id l forward_id reverse_id = (Some r1, Some r2).
Proof.
  intros H. apply get_readpair_inv in H as [H _].
  split; [now apply readpair_scan_valid | assumption].
Qed.

Lemma C6_returned_pair_is_valid_witness :
  get_readpair "S1" repeated_files "_R1" "_R2" empty_world =
    Returned (Some (["S1_L002_R1.fq"; "in"], ["S1_L002_R2.fq"; "in"])) empty_world /\
  valid_readpair "S1" "_R1" "_R2" repeated_files
    ["S1_L002_R1.fq"; "in"] ["S1_L002_R2.fq"; "in"].
Proof.
  split; [reflexivity |].
  apply (C6_returned_pair_is_valid "S1" repeated_files "_R1" "_R2"
           ["S1_L002_R1.fq"; "in"] ["S1_L002_R2.fq"; "in"]
           empty_world empty_world).
  reflexivity.
Defined.

(** C10: the forward test comes first.  A file whose name holds the sample
    identifier and the forward marker goes to the forward slot and leaves
    the reverse slot as it was, so the reverse slot never ends on a file
    whose name holds the forward marker; when every file of the sample
    that holds the reverse marker also holds the forward marker the reverse
    slot stays empty and pairing fails, as it does when the two markers are
    the same string. *)
Theorem C10_forward_marker_precedence (sample_id : string) (l : list Path)
    (forward_id reverse_id : string) :
  (forall slots f,
     names_slot sample_id forward_id f = true ->
     readpair_step sample_id forward_id reverse_id slots f = (Some f, snd slots)) /\
  (forall f,
     snd (readpair_scan sample_id l forward_id reverse_id) = Some f ->
     Str.contains forward_id (name f) = false) /\
  ((forall f, In f l ->
              Str.contains sample_id (name f) = true ->
              Str.contains reverse_id (name f) = true ->
              Str.contains forward_id (name f) = true) ->
   snd (readpair_scan sample_id l forward_id reverse_id) = None /\
   forall w, get_readpair sample_id l forward_id reverse_id w =
             Returned None
               (World (fs w) (trace w ++ [Info (CouldNotPair sample_id)]))) /\
  (forall w, get_readpair sample_id l forward_id forward_id w =
             Returned None
               (World (fs w) (trace w ++ [Info (CouldNotPair sample_id)]))).
Proof.
  assert (Hcover : forall rev,
    (forall f, In f l ->
               Str.contains sample_id (name f) = true ->
               Str.contains rev (name f) = true ->
               Str.contains forward_id (name f) = true) ->
    snd (readpair_scan sample_id l forward_id rev) = None).
  { intros rev H. rewrite readpair_scan_pick. cbn [snd].
    apply pick_none. intros f Hin.
    destruct (fills_reverse sample_id forward_id rev f) eqn:E; [|reflexivity].
    apply fills_reverse_spec in E as (Hs & Hf & Hr).
    rewrite (H f Hin Hs Hr) in Hf. discriminate. }
  split; [|split; [|split]].
  - intros [r1 r2] f H. apply andb_true_iff in H as [Hs Hf].
    unfold readpair_step. now rewrite Hs, Hf.
  - intros f H. rewrite readpair_scan_pick in H. cbn [snd] in H.
    apply pick_some, last_such_in in H as [_ H].
    now apply fills_reverse_spec in H.
  - intros H. split; [now apply Hcover |].
    intros w. apply get_readpair_none. right. now apply Hcover.
  - intros w. apply get_readpair_none. right. apply Hcover. auto.
Qed.

Lemma C10_forward_marker_precedence_witness :
  readpair_step "S1" "_R1" "_R2" (None, None) ["S1_R1_R2.fq"; "in"] =
    (Some ["S1_R1_R2.fq"; "in"], None) /\
  get_readpair "S1" [ ["S1_R1_R2.fq"; "in"] ] "_R1" "_R2" empty_world =
    Returned None (World ∅ [Info (CouldNotPair "S1")]).
Proof.
  destruct (C10_forward_marker_precedence "S1" [ ["S1_R1_R2.fq"; "in"] ] "_R1" "_R2")
    as (Hstep & _ & Hfail & _).
  split.
  - apply (Hstep (None, None)). reflexivity.
  - apply Hfail. intros f [<-|[]] _ _. reflexivity.
Defined.

(** Equal markers: no sample is ever paired. *)
Example get_readpair_equal_markers :
  get_readpair "S1" repeated_files "_R" "_R" empty_world =
  Returned None (World ∅ [Info (CouldNotPair "S1")]).
Proof. reflexivity. Qed.

(** ** SampleIdentifier *)

Lemma retrieve_sampleids_In (files : list Path) (s : string) :
  In s (retrieve_sampleids files) <-> exists f, In f files /\ s = sample_id_of f.
Proof.
  unfold retrieve_sampleids, sample_id_list. split.
  - intros H. apply list_elem_of_In, elem_of_elements in H.
    apply elem_of_list_to_set, list_elem_of_In, in_map_iff in H
      as (f & H1 & H2).
    exists f. auto.
  - intros (f & H1 & ->).
    apply list_elem_of_In, elem_of_elements, elem_of_list_to_set, list_elem_of_In.
    now apply in_map.
Qed.

Lemma retrieve_sampleids_NoDup (files : list Path) :
  NoDup (retrieve_sampleids files).
Proof. unfold retrieve_sampleids. apply NoDup_elements. Qed.

(** C4: the sample identifier of a file is the part of its name before the
    first underscore, and the whole name when there is no underscore; the
    derived collection holds the identifiers of the files, each once. *)
Theorem C4_sample_id_prefix (files : list Path) :
  (forall f pre rest,
     name f = pre +:+ "_" +:+ rest -> Str.has_char "_" pre = false ->
     sample_id_of f = pre) /\
  (forall f, Str.has_char "_" (name f) = false -> sample_id_of f = name f) /\
  (forall f, Str.has_char "_" (sample_id_of f) = false) /\
  (forall s, In s (retrieve_sampleids files) <->
             exists f, In f files /\ s = sample_id_of f) /\
  NoDup (retrieve_sampleids files).
Proof.
  repeat split.
  - intros f pre rest E H. unfold sample_id_of. rewrite E.
    now apply StrFacts.split_hd_first_sep.
  - intros f H. unfold sample_id_of. now rewrite StrFacts.split_no_sep.
  - intros f. apply StrFacts.split_hd_no_sep.
  - now apply retrieve_sampleids_In.
  - now apply retrieve_sampleids_In.
  - apply retrieve_sampleids_NoDup.
Qed.

Lemma C4_sample_id_prefix_witness :
  sample_id_of ["S1_L001_R1.fq"; "in"] = "S1" /\
  sample_id_of ["reads.fq"; "in"] = "reads.fq".
Proof.
  destruct (C4_sample_id_prefix repeated_files) as (Hpre & Hwhole & _).
  split.
  - apply (Hpre ["S1_L001_R1.fq"; "in"] "S1" "L001_R1.fq"); reflexivity.
  - apply (Hwhole ["reads.fq"; "in"]). reflexivity.
Defined.

Lemma in_paired_files (dir : Path) (ids : list string)
    (tail1 tail2 : string -> string) (f : Path) :
  In f (paired_files dir ids tail1 tail2) <->
  exists id, In id ids /\
             (f = (id +:+ "_R1" +:+ tail1 id) :: dir \/
              f = (id +:+ "_R2" +:+ tail2 id) :: dir).
Proof.
  unfold paired_files. rewrite in_flat_map. split.
  - intros (id & Hid & [<-|[<-|[]]]); exists id; auto.
  - intros (id & Hid & [-> | ->]); exists id; simpl; auto.
Qed.

Lemma sample_id_of_marked (dir : Path) (id marker rest : string) :
  Str.has_char "_" id = false ->
  sample_id_of ((id +:+ String "_" marker +:+ rest) :: dir) = id.
Proof.
  intros H. unfold sample_id_of, name. cbn [hd].
  change (String "_" marker +:+ rest) with (String "_" (marker +:+ rest)).
  now apply StrFacts.split_hd_first_sep.
Qed.

(** C7 (amended): for distinct identifiers without underscore, in a
    collection made of one [{id}_R1...] and one [{id}_R2...] file for each
    of them, where no [{id}_R2...] name holds [_R1], the derived identifiers
    are the given ones, as many, and [get_readpair] returns a valid pair for
    each. *)
Theorem C7_paired_ids (dir : Path) (ids : list string)
    (tail1 tail2 : string -> string) (l : list Path) :
  NoDup ids ->
  (forall id, In id ids -> Str.has_char "_" id = false) ->
  (forall id, In id ids ->
              Str.contains "_R1" (id +:+ "_R2" +:+ tail2 id) = false) ->
  (forall f, In f l <-> In f (paired_files dir ids tail1 tail2)) ->
  length (retrieve_sampleids l) = length ids /\
  (forall sid, In sid (retrieve_sampleids l) <-> In sid ids) /\
  (forall sid w, In sid (retrieve_sampleids l) ->
     exists r1 r2,
       get_readpair sid l "_R1" "_R2" w = Returned (Some (r1, r2)) w /\
       valid_readpair sid "_R1" "_R2" l r1 r2).
Proof.
  intros Hnd Hplain Hrev Hl.
  assert (Hids : forall sid, In sid (retrieve_sampleids l) <-> In sid ids).
  { intros sid. rewrite retrieve_sampleids_In. split.
    - intros (f & Hf & ->). apply Hl, in_paired_files in Hf
        as (id & Hid & [-> | ->]); rewrite sample_id_of_marked; auto.
    - intros Hid. exists ((sid +:+ "_R1" +:+ tail1 sid) :: dir). split.
      + apply Hl, in_paired_files. exists sid. auto.
      + symmetry. apply sample_id_of_marked. auto. }
  split; [|split; [exact Hids |]].
  - apply Permutation_length, NoDup_Permutation;
      [apply retrieve_sampleids_NoDup | assumption |].
    intros sid. rewrite !list_elem_of_In. apply Hids.
  - intros sid w Hsid. apply Hids in Hsid.
    destruct (readpair_scan_both sid l "_R1" "_R2"
                ((sid +:+ "_R1" +:+ tail1 sid) :: dir)
                ((sid +:+ "_R2" +:+ tail2 sid) :: dir)) as (r1 & r2 & Hscan).
    + apply Hl, in_paired_files. exists sid. auto.
    + apply fills_forward_spec. split.
      * apply (StrFacts.contains_app sid EmptyString).
      * apply StrFacts.contains_app.
    + apply Hl, in_paired_files. exists sid. auto.
    + apply fills_reverse_spec. repeat split.
      * apply (StrFacts.contains_app sid EmptyString).
      * now apply Hrev.
      * apply StrFacts.contains_app.
    + exists r1, r2. split.
      * now apply get_readpair_some.
      * now apply readpair_scan_valid.
Qed.

Lemma C7_paired_ids_witness :
  length (retrieve_sampleids (paired_files ["in"] plain_ids fq_tail fq_tail)) = 2 /\
  exists r1 r2,
    get_readpair "S2" (paired_files ["in"] plain_ids fq_tail fq_tail)
      "_R1" "_R2" empty_world = Returned (Some (r1, r2)) empty_world /\
    valid_readpair "S2" "_R1" "_R2"
      (paired_files ["in"] plain_ids fq_tail fq_tail) r1 r2.
Proof.
  destruct (C7_paired_ids ["in"] plain_ids fq_tail fq_tail
              (paired_files ["in"] plain_ids fq_tail fq_tail))
    as (Hlen & Hids & Hpair).
  - apply (bool_decide_unpack _). vm_compute. reflexivity.
  - intros id [<-|[<-|[]]]; reflexivity.
  - intros id [<-|[<-|[]]]; reflexivity.
  - intros f. reflexivity.
  - split; [exact Hlen |].
    apply Hpair, Hids. simpl. auto.
Defined.

(** C7, as worded, fails for identifiers that hold an underscore: two
    distinct identifiers give one sample identifier. *)
Lemma C7_underscore_ids_counterexample :
  NoDup underscore_ids /\
  length underscore_ids = 2 /\
  retrieve_sampleids (paired_files ["in"] underscore_ids fq_tail fq_tail) = ["A"] /\
  length (retrieve_sampleids (paired_files ["in"] underscore_ids fq_tail fq_tail)) = 1.
Proof.
  split; [|split; [|split]].
  - apply (bool_decide_unpack _). vm_compute. reflexivity.
  - reflexivity.
  - vm_compute. reflexivity.
  - vm_compute. reflexivity.
Qed.

(** A reverse file whose name also holds [_R1] is taken as a forward
    file, and the sample is left without a pair. *)
Example paired_files_forward_marker_in_reverse_name :
  paired_files ["in"] ["S1"] fq_tail forward_again_tail =
    [ ["S1_R1.fq"; "in"]; ["S1_R2_R1.fq"; "in"] ] /\
  get_readpair "S1" (paired_files ["in"] ["S1"] fq_tail forward_again_tail)
    "_R1" "_R2" empty_world =
  Returned None (World ∅ [Info (CouldNotPair "S1")]).
Proof. split; reflexivity. Qed.

(** ** FileScanner *)

Lemma scandir_In (fs : FS) (d p : Path) :
  In p (scandir fs d) <-> is_Some (fs !! p) /\ p <> [] /\ parent p = d.
Proof.
  unfold scandir.
  rewrite <- list_elem_of_In, list_elem_of_filter, elem_of_elements, elem_of_dom.
  tauto.
Qed.

Lemma scandir_NoDup (fs : FS) (d : Path) : NoDup (scandir fs d).
Proof. unfold scandir. apply NoDup_filter, NoDup_elements. Qed.

Lemma glob_In (fs : FS) (d : Path) (pat : string) (p : Path) :
  In p (glob fs d pat) <->
  is_dir fs d = true /\ In p (scandir fs d) /\ Str.fnmatch pat (name p) = true.
Proof.
  unfold glob. destruct (is_dir fs d).
  - rewrite <- !list_elem_of_In, list_elem_of_filter. tauto.
  - simpl. split; [intros [] | intros [H _]; discriminate].
Qed.

Lemma glob_NoDup (fs : FS) (d : Path) (pat : string) : NoDup (glob fs d pat).
Proof.
  unfold glob. destruct (is_dir fs d); [|constructor].
  apply NoDup_filter, scandir_NoDup.
Qed.

Lemma glob_not_dir (fs : FS) (d : Path) (pat : string) :
  is_dir fs d = false -> glob fs d pat = [].
Proof. intros H. unfold glob. now rewrite H. Qed.

(** C2 (amended): in a directory, [retrieve_fastqgz] returns exactly the
    entries directly inside it, files or directories, whose name holds
    [.f] and, somewhere after it, [q]; no path comes twice. *)
Theorem C2_scanner_matches_glob (fs : FS) (directory : Path) :
  (forall p,
     In p (retrieve_fastqgz fs directory) <->
     is_dir fs directory = true /\
     is_Some (fs !! p) /\ p <> [] /\ parent p = directory /\
     exists a b c, name p = a +:+ ".f" +:+ b +:+ "q" +:+ c) /\
  NoDup (retrieve_fastqgz fs directory).
Proof.
  unfold retrieve_fastqgz. split; [|apply glob_NoDup].
  intros p. rewrite glob_In, scandir_In, StrFacts.fnmatch_fastq_glob. tauto.
Qed.

(** C2, as worded, fails: a file directly inside the directory whose name
    holds an [f] and later a [q] is not returned when no [.f] is in the
    name. *)
Lemma C2_no_extension_counterexample :
  no_extension_fs !! ["S1_R1_fastq"; "in"] = Some File /\
  parent ["S1_R1_fastq"; "in"] = ["in"] /\
  spec_read_file_name (name ["S1_R1_fastq"; "in"]) /\
  retrieve_fastqgz no_extension_fs ["in"] = [].
Proof.
  split; [|split; [|split]].
  - vm_compute. reflexivity.
  - reflexivity.
  - exists "S1_R1_", "ast", EmptyString. reflexivity.
  - vm_compute. reflexivity.
Qed.

(** The match is case-sensitive, takes directories as well as files and
    does not descend. *)
Example retrieve_fastqgz_mixed :
  retrieve_fastqgz mixed_fs ["in"] =
  [ ["S1_R1.fastq.gz"; "in"]; ["old.fq"; "in"] ].
Proof. vm_compute. reflexivity. Qed.

(** ** Output directories *)

Lemma node_at_insert_eq (files : FS) (p : Path) :
  node_at (<[p := Dir]> files) p = Some Dir.
Proof. destruct p; [reflexivity | apply lookup_insert_eq]. Qed.

Lemma node_at_insert_ne (files : FS) (p q : Path) :
  p <> q -> node_at (<[p := Dir]> files) q = node_at files q.
Proof. intros H. destruct q; [reflexivity | now apply lookup_insert_ne]. Qed.

Lemma wf_fsb_sound (files : FS) : wf_fsb files = true -> wf_fs files.
Proof.
  intros H [|t p] Hp; [reflexivity |].
  unfold wf_fsb in H. rewrite forallb_forall in H.
  assert (Hin : In (t :: p) (elements (dom files)))
    by (apply list_elem_of_In, elem_of_elements, elem_of_dom; exact Hp).
  apply H in Hin. unfold is_dir in Hin. cbn [parent tl] in *.
  destruct (node_at files p) as [[]|]; congruence.
Qed.

Lemma wf_fs_insert (files : FS) (p : Path) :
  wf_fs files -> node_at files (parent p) = Some Dir ->
  wf_fs (<[p := Dir]> files).
Proof.
  intros Hwf Hpar q Hq.
  destruct (decide (p = parent q)) as [->|Hne]; [apply node_at_insert_eq |].
  rewrite node_at_insert_ne by assumption.
  destruct (decide (p = q)) as [<-|Hpq]; [assumption |].
  apply Hwf. now rewrite node_at_insert_ne in Hq.
Qed.

(** A successful [mkdir_exist_ok] either found the directory or made it. *)
Lemma mkdir_exist_ok_inr (files files' : FS) (p : Path) :
  mkdir_exist_ok p files = inr files' ->
  (files' = files /\ is_dir files p = true) \/
  (files' = <[p := Dir]> files /\ node_at files (parent p) = Some Dir).
Proof.
  unfold mkdir_exist_ok, mkdir.
  destruct (node_at files p) as [n|] eqn:Hp.
  - destruct (is_dir files p); [|discriminate]. intros [= <-]. now left.
  - destruct (node_at files (parent p)) as [[]|] eqn:Hpar.
    + destruct (is_dir files p); [|discriminate]. intros [= <-]. now left.
    + intros [= <-]. now right.
    + destruct (is_dir files p); [|discriminate]. intros [= <-]. now left.
Qed.

Lemma mkdir_exist_ok_ok (files files' : FS) (p : Path) :
  wf_fs files -> mkdir_exist_ok p files = inr files' ->
  wf_fs files' /\ is_dir files' p = true.
Proof.
  intros Hwf H. apply mkdir_exist_ok_inr in H as [[-> Hd]|[-> Hpar]].
  - now split.
  - split; [now apply wf_fs_insert |].
    unfold is_dir. now rewrite node_at_insert_eq.
Qed.

Lemma mkdir_exist_ok_dir (files : FS) (p : Path) :
  is_dir files p = true -> mkdir_exist_ok p files = inr files.
Proof.
  intros H. unfold mkdir_exist_ok, mkdir. unfold is_dir in *.
  destruct (node_at files p) as [[]|]; try discriminate. reflexivity.
Qed.

(** A successful [makedirs] leaves a well-formed filesystem in which the
    path is a directory. *)
Lemma makedirs_ok (p : Path) :
  forall files files' : FS,
    wf_fs files -> makedirs p files = inr files' ->
    wf_fs files' /\ is_dir files' p = true.
Proof.
  induction p as [|t head IH]; intros files files' Hwf H.
  - now apply (mkdir_exist_ok_ok files).
  - cbn [makedirs] in H. destruct head as [|h hs].
    + now apply (mkdir_exist_ok_ok files).
    + destruct (path_exists files (h :: hs)).
      * now apply (mkdir_exist_ok_ok files).
      * destruct (makedirs (h :: hs) files) as [e|files1] eqn:E.
        -- destruct e; try discriminate. now apply (mkdir_exist_ok_ok files).
        -- apply IH in E as [Hwf1 _]; [|assumption].
           now apply (mkdir_exist_ok_ok files1).
Qed.

(** On an existing directory [makedirs] changes nothing. *)
Lemma makedirs_dir (files : FS) (p : Path) :
  wf_fs files -> is_dir files p = true -> makedirs p files = inr files.
Proof.
  intros Hwf H. destruct p as [|t [|h hs]]; cbn [makedirs];
    try now apply mkdir_exist_ok_dir.
  assert (Hhead : node_at files (h :: hs) = Some Dir).
  { apply (Hwf (t :: h :: hs)). unfold is_dir in H.
    destruct (node_at files (t :: h :: hs)); [eauto | discriminate]. }
  unfold path_exists. rewrite Hhead. now apply mkdir_exist_ok_dir.
Qed.

(** C9: on a well-formed filesystem, [os.makedirs(p, exist_ok=True)] on an
    existing directory raises nothing and leaves the filesystem as it is;
    after a successful call the path is a directory and a second call
    changes nothing, so calling twice is the same as calling once.  This
    holds for every path, the output root and [out_dir / sample_id]
    alike. *)
Theorem C9_makedirs_idempotent (files : FS) (p : Path) :
  wf_fs files ->
  (is_dir files p = true -> makedirs p files = inr files) /\
  (forall files',
     makedirs p files = inr files' ->
     is_dir files' p = true /\ makedirs p files' = inr files') /\
  (forall t, (os_makedirs p ;;; os_makedirs p) (World files t) =
             os_makedirs p (World files t)).
Proof.
  intros Hwf. split; [|split].
  - now apply makedirs_dir.
  - intros files' H. apply makedirs_ok in H as [Hwf' Hd]; [|assumption].
    split; [assumption | now apply makedirs_dir].
  - intros t. unfold bind, os_makedirs, on_fs. cbn [fs trace].
    destruct (makedirs p files) as [e|files'] eqn:E; [reflexivity |].
    cbn [fs trace]. apply makedirs_ok in E as [Hwf' Hd]; [|assumption].
    now rewrite (makedirs_dir files' p Hwf' Hd).
Qed.

Lemma C9_makedirs_idempotent_witness :
  wf_fs demo_fs /\
  exists files',
    makedirs ["S1"; "out"] demo_fs = inr files' /\
    is_dir files' ["S1"; "out"] = true /\
    makedirs ["S1"; "out"] files' = inr files'.
Proof.
  assert (Hwf : wf_fs demo_fs) by (apply wf_fsb_sound; vm_compute; reflexivity).
  split; [exact Hwf |].
  destruct (C9_makedirs_idempotent demo_fs ["S1"; "out"] Hwf) as (_ & Htwice & _).
  exists (<[ ["S1"; "out"] := Dir ]> (<[ ["out"] := Dir ]> demo_fs)).
  split; [vm_compute; reflexivity |].
  apply Htwice. vm_compute. reflexivity.
Defined.

(** ** BatchOrchestrator *)

Lemma retrieve_sampleids_nil : retrieve_sampleids [] = [].
Proof. unfold retrieve_sampleids. apply elements_empty. Qed.

Section OrchestratorFacts.

Variable assembly_pipeline : Path -> Path -> Path -> string -> FS -> exn + FS.
Variable clean_up : Path -> FS -> exn + FS.

(** [assemble_dir], step by step. *)
Lemma assemble_dir_unfold (input_dir out_dir : Path) (fwd_id rev_id : string)
    (w : world) :
  assemble_dir assembly_pipeline clean_up input_dir out_dir fwd_id rev_id w =
  match makedirs out_dir (fs w) with
  | inl e => Raised e w
  | inr files =>
      let fastq_file_list := retrieve_fastqgz files input_dir in
      let sample_ids := retrieve_sampleids fastq_file_list in
      match for_each sample_ids
              (process_sample assembly_pipeline clean_up
                 fastq_file_list out_dir fwd_id rev_id)
              (World files
                 (trace w ++ preamble input_dir out_dir (length sample_ids)))
      with
      | Returned _ w' =>
          Returned tt (World (fs w') (trace w' ++ [Info (PipelineComplete out_dir)]))
      | Raised e w' => Raised e w'
      end
  end.
Proof.
  unfold assemble_dir, bind, os_makedirs, on_fs, logging_info, emit, read_fs.
  destruct (makedirs out_dir (fs w)) as [e|files]; [reflexivity |].
  cbn [fs trace]. unfold preamble. rewrite <- !app_assoc. cbn [app].
  reflexivity.
Qed.

(** A sample that cannot be paired: the log line, then the [TypeError] of
    the unpacking. *)
Lemma process_sample_unpaired (fastq_file_list : list Path) (out_dir : Path)
    (fwd_id rev_id sample_id : string) (w : world) :
  fst (readpair_scan sample_id fastq_file_list fwd_id rev_id) = None \/
  snd (readpair_scan sample_id fastq_file_list fwd_id rev_id) = None ->
  process_sample assembly_pipeline clean_up fastq_file_list out_dir
    fwd_id rev_id sample_id w =
  Raised TypeError (World (fs w) (trace w ++ [Info (CouldNotPair sample_id)])).
Proof.
  intros H. unfold process_sample, bind.
  now rewrite (get_readpair_none _ _ _ _ w H).
Qed.

(** A loop whose body raises at one of the elements raises. *)
Lemma for_each_raises {A} (xs : list A) (body : A -> M unit) (x : A) :
  In x xs ->
  (forall w, exists e w', body x w = Raised e w') ->
  forall w, exists e w', for_each xs body w = Raised e w'.
Proof.
  intros Hin Hx. induction xs as [|y xs IH]; [destruct Hin |].
  intros w. cbn [for_each]. unfold bind.
  destruct (body y w) as [[] w1|e w1] eqn:E; [|now exists e, w1].
  destruct Hin as [->|Hin]; [|now apply IH].
  destruct (Hx w) as (e & w' & Hr). congruence.
Qed.

End OrchestratorFacts.

(** C8 (amended): when the input directory does not exist, the scanner
    returns an empty collection and raises nothing; the run then finds no
    sample, calls no collaborator and completes. *)
Theorem C8_missing_input_dir_is_empty
    (assembly_pipeline : Path -> Path -> Path -> string -> FS -> exn + FS)
    (clean_up : Path -> FS -> exn + FS)
    (input_dir out_dir : Path) (fwd_id rev_id : string)
    (w : world) (files : FS) :
  makedirs out_dir (fs w) = inr files ->
  is_dir files input_dir = false ->
  retrieve_fastqgz files input_dir = [] /\
  assemble_dir assembly_pipeline clean_up input_dir out_dir fwd_id rev_id w =
  Returned tt
    (World files (trace w ++ preamble input_dir out_dir 0
                          ++ [Info (PipelineComplete out_dir)])).
Proof.
  intros Hout Hin.
  assert (Hscan : retrieve_fastqgz files input_dir = [])
    by now apply glob_not_dir.
  split; [exact Hscan |].
  rewrite assemble_dir_unfold, Hout. cbn zeta.
  rewrite Hscan, retrieve_sampleids_nil. cbn [for_each ret length fs trace].
  now rewrite <- app_assoc.
Qed.

Lemma C8_missing_input_dir_is_empty_witness :
  retrieve_fastqgz (<[ ["out"] := Dir ]> ∅) ["missing"] = [] /\
  assemble_dir idle_pipeline idle_clean_up ["missing"] ["out"] "_R1" "_R2"
    empty_world =
  Returned tt
    (World (<[ ["out"] := Dir ]> ∅)
       (preamble ["missing"] ["out"] 0 ++ [Info (PipelineComplete ["out"])])).
Proof.
  apply (C8_missing_input_dir_is_empty idle_pipeline idle_clean_up
           ["missing"] ["out"] "_R1" "_R2" empty_world).
  - vm_compute. reflexivity.
  - vm_compute. reflexivity.
Defined.

(** C8, as worded, fails: with no input directory the scanner raises
    nothing and the run completes as for an empty directory. *)
Lemma C8_missing_input_dir_counterexample :
  is_dir ∅ ["missing"] = false /\
  retrieve_fastqgz ∅ ["missing"] = [] /\
  assemble_dir idle_pipeline idle_clean_up ["missing"] ["out"] "_R1" "_R2"
    empty_world =
  Returned tt
    (World (<[ ["out"] := Dir ]> ∅)
       [ Info (CreatedOutputDirectory ["out"]);
         Info (FindingFastqFiles ["missing"]);
         Info FindingSampleIDs;
         Info (FoundUniqueSampleIDs 0);
         Info (PipelineComplete ["out"]) ]).
Proof. repeat split; vm_compute; reflexivity. Qed.

(** C1 (the run as coded): for a sample that cannot be paired the loop
    body logs the failure and then raises [TypeError] at the unpacking of
    [None], before any directory is made or any collaborator is called
    for that sample; a run whose samples include such a sample ends in a
    raised exception and never completes. *)
Theorem C1_unpaired_sample_aborts_run
    (assembly_pipeline : Path -> Path -> Path -> string -> FS -> exn + FS)
    (clean_up : Path -> FS -> exn + FS)
    (input_dir out_dir : Path) (fwd_id rev_id : string)
    (w : world) (files : FS) (sample_id : string) :
  makedirs out_dir (fs w) = inr files ->
  In sample_id (retrieve_sampleids (retrieve_fastqgz files input_dir)) ->
  fst (readpair_scan sample_id (retrieve_fastqgz files input_dir) fwd_id rev_id) = None \/
  snd (readpair_scan sample_id (retrieve_fastqgz files input_dir) fwd_id rev_id) = None ->
  (forall w0,
     process_sample assembly_pipeline clean_up
       (retrieve_fastqgz files input_dir) out_dir fwd_id rev_id sample_id w0 =
     Raised TypeError
       (World (fs w0) (trace w0 ++ [Info (CouldNotPair sample_id)]))) /\
  exists e w',
    assemble_dir assembly_pipeline clean_up input_dir out_dir fwd_id rev_id w =
    Raised e w'.
Proof.
  intros Hout Hin Hscan. split.
  - intros w0. now apply process_sample_unpaired.
  - rewrite assemble_dir_unfold, Hout. cbn zeta.
    edestruct (for_each_raises
                 (retrieve_sampleids (retrieve_fastqgz files input_dir))
                 (process_sample assembly_pipeline clean_up
                    (retrieve_fastqgz files input_dir) out_dir fwd_id rev_id)
                 sample_id Hin) as (e & w' & ->).
    + intros w0. eexists _, _. now apply process_sample_unpaired.
    + now exists e, w'.
Qed.

Lemma C1_unpaired_sample_aborts_run_witness :
  exists e w',
    assemble_dir idle_pipeline idle_clean_up ["in"] ["out"] "_R1" "_R2"
      (World demo_fs []) = Raised e w'.
Proof.
  apply (C1_unpaired_sample_aborts_run idle_pipeline idle_clean_up
           ["in"] ["out"] "_R1" "_R2" (World demo_fs [])
           (<[ ["out"] := Dir ]> demo_fs) "S2").
  - vm_compute. reflexivity.
  - vm_compute. auto.
  - right. vm_compute. reflexivity.
Defined.

(** The run on [S1_R1], [S1_R2] and [S2_R1]: [TypeError] at [S2], with no
    directory for [S2] and no collaborator called for it. *)
Example assemble_dir_unpaired_sample :
  match assemble_dir idle_pipeline idle_clean_up ["in"] ["out"] "_R1" "_R2"
          (World demo_fs []) with
  | Raised TypeError w' =>
      fs w' !! ["S2"; "out"] = None /\
      trace w' =
      preamble ["in"] ["out"] 2 ++
      [ PipelineCall ["S1_R1.fastq.gz"; "in"] ["S1_R2.fastq.gz"; "in"]
          ["S1"; "out"] "S1";
        CleanUpCall ["S1"; "out"];
        Info (CouldNotPair "S2") ]
  | _ => False
  end.
Proof. vm_compute. split; reflexivity. Qed.

(** The same with the unpaired sample alone. *)
Example assemble_dir_only_unpaired_sample :
  assemble_dir idle_pipeline idle_clean_up ["in"] ["out"] "_R1" "_R2"
    (World (fs_of_list [ (["in"], Dir); (["S2_R1.fastq.gz"; "in"], File) ]) []) =
  Raised TypeError
    (World (fs_of_list [ (["in"], Dir); (["S2_R1.fastq.gz"; "in"], File);
                         (["out"], Dir) ])
       (preamble ["in"] ["out"] 1 ++ [Info (CouldNotPair "S2")])).
Proof. vm_compute. reflexivity. Qed.

(** * Further properties of the code *)

(** ** SampleIdentifier, continued *)

Lemma split_hd_prefix (sep : ascii) (s : string) :
  s = hd EmptyString (Str.split sep s) \/
  exists rest, s = hd EmptyString (Str.split sep s) +:+ String sep rest.
Proof.
  induction s as [|c s IH]; [now left |].
  cbn [Str.split]. destruct (Ascii.eqb c sep) eqn:Hc.
  - right. exists s. apply Ascii.eqb_eq in Hc. now subst.
  - destruct (Str.split sep s) as [|piece pieces] eqn:E.
    + now apply StrFacts.split_nonempty in E.
    + cbn [hd] in *. destruct IH as [->|[rest ->]].
      * now left.
      * right. now exists rest.
Qed.

(** X1: every file name is its sample identifier followed by nothing or
    by an underscore and the rest; the identifier holds no underscore, and
    the name contains it, so that a file always passes the first test of
    [get_readpair] for its own sample. *)
Theorem sample_id_decomposes_name (f : Path) :
  (name f = sample_id_of f \/
   exists rest, name f = sample_id_of f +:+ "_" +:+ rest) /\
  Str.has_char "_" (sample_id_of f) = false /\
  Str.contains (sample_id_of f) (name f) = true.
Proof.
  unfold sample_id_of. split; [|split].
  - apply split_hd_prefix.
  - apply StrFacts.split_hd_no_sep.
  - apply StrFacts.contains_spec. exists EmptyString.
    destruct (split_hd_prefix "_" (name f)) as [H|[rest H]].
    + exists EmptyString. rewrite StrFacts.append_nil_r. exact H.
    + exists (String "_" rest). exact H.
Qed.

(** X2: there are never more sample identifiers than files, and there is
    none exactly when there is no file. *)
Theorem sample_ids_count (fastq_file_list : list Path) :
  length (retrieve_sampleids fastq_file_list) <= length fastq_file_list /\
  (retrieve_sampleids fastq_file_list = [] <-> fastq_file_list = []).
Proof.
  split.
  - rewrite <- (length_map sample_id_of fastq_file_list).
    apply NoDup_incl_length; [apply NoDup_ListNoDup, retrieve_sampleids_NoDup |].
    intros s Hs. apply retrieve_sampleids_In in Hs as (f & Hf & ->).
    now apply in_map.
  - split.
    + intros H. destruct fastq_file_list as [|f l]; [reflexivity |].
      assert (Hin : In (sample_id_of f) (retrieve_sampleids (f :: l)))
        by (apply retrieve_sampleids_In; exists f; split; [now left | reflexivity]).
      rewrite H in Hin. destruct Hin.
    + intros ->. apply retrieve_sampleids_nil.
Qed.

(** ** ReadPairer, continued *)

(** X3: the two files of a returned pair are different files: the reverse
    one does not hold the forward marker, the forward one does. *)
Theorem returned_pair_distinct (sample_id : string) (l : list Path)
    (forward_id reverse_id : string) (r1 r2 : Path) (w w' : world) :
  get_readpair sample_id l forward_id reverse_id w = Returned (Some (r1, r2)) w' ->
  r1 <> r2 /\
  Str.contains forward_id (name r1) = true /\
  Str.contains forward_id (name r2) = false.
Proof.
  intros H. apply get_readpair_inv in H as [H _].
  rewrite readpair_scan_pick in H. injection H as H1 H2.
  apply pick_some, last_such_in in H1 as [_ Hf].
  apply pick_some, last_such_in in H2 as [_ Hr].
  apply fills_forward_spec in Hf as [_ Hf].
  apply fills_reverse_spec in Hr as (_ & Hr & _).
  repeat split; try assumption. intros ->. congruence.
Qed.

Lemma returned_pair_distinct_witness :
  get_readpair "S1" repeated_files "_R1" "_R2" empty_world =
    Returned (Some (["S1_L002_R1.fq"; "in"], ["S1_L002_R2.fq"; "in"])) empty_world /\
  ["S1_L002_R1.fq"; "in"] <> ["S1_L002_R2.fq"; "in"].
Proof.
  split; [reflexivity |].
  apply (returned_pair_distinct "S1" repeated_files "_R1" "_R2"
           ["S1_L002_R1.fq"; "in"] ["S1_L002_R2.fq"; "in"]
           empty_world empty_world).
  reflexivity.
Defined.

Lemma pick_unique (P : Path -> bool) (l : list Path) (f : Path) :
  at_most_one P l ->
  pick P None l = Some f <-> In f l /\ P f = true.
Proof.
  intros Huniq. split.
  - intros H. now apply last_such_in, pick_some.
  - intros [Hin Hf].
    destruct (pick_is_some P l) as [g Hg]; [now exists f |].
    destruct (last_such_in P l g (pick_some P l g Hg)) as [Hgin Hgp].
    now rewrite (Huniq f g Hin Hgin Hf Hgp).
Qed.

Lemma pick_permutation (P : Path -> bool) (l l' : list Path) :
  Permutation l l' -> at_most_one P l ->
  pick P None l' = pick P None l.
Proof.
  intros Hperm Huniq.
  assert (Huniq' : at_most_one P l').
  { intros f g Hf Hg. apply Huniq; eapply Permutation_in;
      try eassumption; now apply Permutation_sym. }
  destruct (pick P None l) as [f|] eqn:E.
  - apply (pick_unique P l' f Huniq'). apply (pick_unique P l f Huniq) in E as [Hin Hf].
    split; [|assumption]. eapply Permutation_in; eassumption.
  - apply pick_none. intros f Hin. apply (proj1 (pick_none P l) E).
    eapply Permutation_in; [apply Permutation_sym|]; eassumption.
Qed.

(** X4: when at most one file fills each slot of a sample, the result of
    [get_readpair] does not depend on the order in which the files are
    listed. *)
Theorem get_readpair_order_irrelevant (sample_id : string) (l l' : list Path)
    (forward_id reverse_id : string) (w : world) :
  Permutation l l' ->
  at_most_one (fills_forward sample_id forward_id) l ->
  at_most_one (fills_reverse sample_id forward_id reverse_id) l ->
  get_readpair sample_id l' forward_id reverse_id w =
  get_readpair sample_id l forward_id reverse_id w.
Proof.
  intros Hperm Hf Hr. unfold get_readpair. rewrite !readpair_scan_pick.
  now rewrite (pick_permutation _ l l' Hperm Hf), (pick_permutation _ l l' Hperm Hr).
Qed.

Lemma get_readpair_order_irrelevant_witness :
  get_readpair "S1" [ ["S1_R2.fq"; "in"]; ["S1_R1.fq"; "in"] ] "_R1" "_R2" empty_world =
  get_readpair "S1" [ ["S1_R1.fq"; "in"]; ["S1_R2.fq"; "in"] ] "_R1" "_R2" empty_world.
Proof.
  apply get_readpair_order_irrelevant.
  - apply perm_swap.
  - intros f g [<-|[<-|[]]] [<-|[<-|[]]]; try reflexivity; discriminate.
  - intros f g [<-|[<-|[]]] [<-|[<-|[]]]; try reflexivity; discriminate.
Defined.

(** X5: the sample test is a substring test, so the files of a sample
    whose identifier extends [s] are candidates for [s] as well: listed
    last, they are the pair returned for [s], although their own sample
    identifier is [s +:+ t]. *)
Theorem get_readpair_substring_crosstalk (dir : Path) (s t tail1 tail2 : string)
    (l : list Path) (w : world) :
  Str.contains "_R1" ((s +:+ t) +:+ "_R2" +:+ tail2) = false ->
  get_readpair s
    (l ++ [ ((s +:+ t) +:+ "_R1" +:+ tail1) :: dir;
            ((s +:+ t) +:+ "_R2" +:+ tail2) :: dir ]) "_R1" "_R2" w =
  Returned (Some (((s +:+ t) +:+ "_R1" +:+ tail1) :: dir,
                  ((s +:+ t) +:+ "_R2" +:+ tail2) :: dir)) w /\
  (Str.has_char "_" (s +:+ t) = false ->
   sample_id_of (((s +:+ t) +:+ "_R1" +:+ tail1) :: dir) = s +:+ t /\
   sample_id_of (((s +:+ t) +:+ "_R2" +:+ tail2) :: dir) = s +:+ t).
Proof.
  intros Hrev.
  assert (Hs : forall x, Str.contains s ((s +:+ t) +:+ x) = true).
  { intros x. rewrite StrFacts.append_assoc.
    apply (StrFacts.contains_app s EmptyString). }
  split.
  - apply get_readpair_some. rewrite readpair_scan_pick. f_equal.
    + apply pick_last. exists l, [ ((s +:+ t) +:+ "_R2" +:+ tail2) :: dir ].
      repeat split.
      * apply fills_forward_spec. split; [apply Hs | apply StrFacts.contains_app].
      * intros g [<-|[]]. unfold fills_forward, name. cbn [hd].
        rewrite Hrev. apply andb_false_r.
    + apply pick_last.
      exists (l ++ [ ((s +:+ t) +:+ "_R1" +:+ tail1) :: dir ]), [].
      repeat split.
      * now rewrite <- app_assoc.
      * apply fills_reverse_spec. repeat split;
          [apply Hs | exact Hrev | apply StrFacts.contains_app].
      * intros g [].
  - intros Hplain. split; now apply sample_id_of_marked.
Qed.

Lemma get_readpair_substring_crosstalk_witness :
  get_readpair "S1"
    [ ["S1_R1.fq"; "in"]; ["S1_R2.fq"; "in"];
      ["S11_R1.fq"; "in"]; ["S11_R2.fq"; "in"] ] "_R1" "_R2" empty_world =
  Returned (Some (["S11_R1.fq"; "in"], ["S11_R2.fq"; "in"])) empty_world.
Proof.
  apply (get_readpair_substring_crosstalk ["in"] "S1" "1" ".fq" ".fq"
           [ ["S1_R1.fq"; "in"]; ["S1_R2.fq"; "in"] ] empty_world).
  reflexivity.
Defined.

(** X6: a file whose name starts with an underscore has the empty sample
    identifier.  Its output directory is the output root itself, and every
    file of the collection is a candidate for it: it is paired as soon as
    some file holds the forward marker and some file holds the reverse
    marker without the forward one. *)
Theorem empty_sample_id (dir out_dir : Path) (rest : string) (l : list Path)
    (forward_id reverse_id : string) (w : world) :
  sample_id_of (("_" +:+ rest) :: dir) = EmptyString /\
  joinpath out_dir EmptyString = out_dir /\
  ((exists r1 r2,
      get_readpair EmptyString l forward_id reverse_id w = Returned (Some (r1, r2)) w) <->
   (exists f, In f l /\ Str.contains forward_id (name f) = true) /\
   (exists g, In g l /\ Str.contains forward_id (name g) = false /\
              Str.contains reverse_id (name g) = true)).
Proof.
  split; [reflexivity | split; [reflexivity |]].
  assert (Hf : forall f, fills_forward EmptyString forward_id f = true <->
                         Str.contains forward_id (name f) = true).
  { intros f. rewrite fills_forward_spec, StrFacts.contains_empty. tauto. }
  assert (Hr : forall g, fills_reverse EmptyString forward_id reverse_id g = true <->
                         Str.contains forward_id (name g) = false /\
                         Str.contains reverse_id (name g) = true).
  { intros g. rewrite fills_reverse_spec, StrFacts.contains_empty. tauto. }
  split.
  - intros (r1 & r2 & H). apply get_readpair_inv in H as [H _].
    rewrite readpair_scan_pick in H. injection H as H1 H2.
    apply pick_some, last_such_in in H1 as [Hin1 H1].
    apply pick_some, last_such_in in H2 as [Hin2 H2].
    split; [exists r1 | exists r2]; split; try assumption;
      [now apply Hf | now apply Hr].
  - intros [(f & Hin1 & H1) (g & Hin2 & H2)].
    destruct (readpair_scan_both EmptyString l forward_id reverse_id f g)
      as (r1 & r2 & H); try assumption; [now apply Hf | now apply Hr |].
    exists r1, r2. now apply get_readpair_some.
Qed.

(** ** FileScanner, continued *)

Lemma has_char_app (c : ascii) (a b : string) :
  Str.has_char c (a +:+ b) = Str.has_char c a || Str.has_char c b.
Proof.
  induction a as [|x a IH]; [reflexivity |].
  cbn [String.append Str.has_char]. simpl. now rewrite IH, orb_assoc.
Qed.

(** X7: an entry of the directory whose name holds [.fastq] or [.fq],
    whatever comes before and after, is returned by the scanner; an entry
    whose name has no dot, no [f] or no [q] never is. *)
Theorem retrieve_fastqgz_extensions (files : FS) (directory : Path) :
  is_dir files directory = true ->
  (forall stem rest,
     is_Some (files !! ((stem +:+ ".fastq" +:+ rest) :: directory)) ->
     In ((stem +:+ ".fastq" +:+ rest) :: directory)
        (retrieve_fastqgz files directory)) /\
  (forall stem rest,
     is_Some (files !! ((stem +:+ ".fq" +:+ rest) :: directory)) ->
     In ((stem +:+ ".fq" +:+ rest) :: directory)
        (retrieve_fastqgz files directory)) /\
  (forall p,
     In p (retrieve_fastqgz files directory) ->
     Str.has_char "." (name p) = true /\
     Str.has_char "f" (name p) = true /\
     Str.has_char "q" (name p) = true).
Proof.
  intros Hdir. unfold retrieve_fastqgz. repeat split.
  - intros stem rest Hp. apply glob_In. split; [assumption | split].
    + apply scandir_In. repeat split; [assumption | discriminate].
    + apply StrFacts.fnmatch_fastq_glob. now exists stem, "ast", rest.
  - intros stem rest Hp. apply glob_In. split; [assumption | split].
    + apply scandir_In. repeat split; [assumption | discriminate].
    + apply StrFacts.fnmatch_fastq_glob. now exists stem, EmptyString, rest.
  - apply glob_In in H as (_ & _ & H).
    apply StrFacts.fnmatch_fastq_glob in H as (a & b & c & ->).
    rewrite has_char_app. apply orb_true_iff. now right.
  - apply glob_In in H as (_ & _ & H).
    apply StrFacts.fnmatch_fastq_glob in H as (a & b & c & ->).
    rewrite has_char_app. apply orb_true_iff. now right.
  - apply glob_In in H as (_ & _ & H).
    apply StrFacts.fnmatch_fastq_glob in H as (a & b & c & ->).
    rewrite !has_char_app. cbn [Str.has_char]. simpl.
    rewrite !orb_true_r. reflexivity.
Qed.

Lemma retrieve_fastqgz_extensions_witness :
  In ["S1_R1.fastq.gz"; "in"] (retrieve_fastqgz mixed_fs ["in"]).
Proof.
  destruct (retrieve_fastqgz_extensions mixed_fs ["in"]) as (Hfastq & _).
  - by_evaluation.
  - apply (Hfastq "S1_R1" ".gz"). vm_compute. eauto.
Defined.

(** ** Output directories, continued *)

Lemma mkdir_exist_ok_inr_fresh (files files' : FS) (p : Path) :
  mkdir_exist_ok p files = inr files' ->
  files' = files \/ (files' = <[p := Dir]> files /\ node_at files p = None).
Proof.
  unfold mkdir_exist_ok, mkdir.
  destruct (node_at files p) as [n|] eqn:Hp.
  - destruct (is_dir files p); [|discriminate]. intros [= <-]. now left.
  - destruct (node_at files (parent p)) as [[]|].
    + destruct (is_dir files p); [|discriminate]. intros [= <-]. now left.
    + intros [= <-]. now right.
    + destruct (is_dir files p); [|discriminate]. intros [= <-]. now left.
Qed.

(** What one [mkdir_exist_ok] changes. *)
Lemma mkdir_exist_ok_grows (files files' : FS) (p : Path) :
  mkdir_exist_ok p files = inr files' ->
  (forall q n, node_at files q = Some n -> node_at files' q = Some n) /\
  (forall q, node_at files q = None -> is_Some (node_at files' q) ->
             node_at files' q = Some Dir /\ q = p).
Proof.
  intros H. apply mkdir_exist_ok_inr_fresh in H as [->|[-> Hp]].
  - split; [auto |]. intros q Hq [n Hn]. congruence.
  - split.
    + intros q n Hq. destruct (decide (p = q)) as [<-|Hne]; [congruence |].
      now rewrite node_at_insert_ne.
    + intros q Hq Hsome. destruct (decide (p = q)) as [<-|Hne].
      * split; [apply node_at_insert_eq | reflexivity].
      * rewrite node_at_insert_ne in Hsome by assumption.
        destruct Hsome as [n Hn]. congruence.
Qed.

Lemma mkdir_exist_ok_grows_suffix (files files' : FS) (p : Path) :
  mkdir_exist_ok p files = inr files' ->
  (forall q n, node_at files q = Some n -> node_at files' q = Some n) /\
  (forall q, node_at files q = None -> is_Some (node_at files' q) ->
             node_at files' q = Some Dir /\ q `suffix_of` p).
Proof.
  intros H. apply mkdir_exist_ok_grows in H as [Hkeep Hnew].
  split; [assumption |]. intros q Hq Hs.
  destruct (Hnew q Hq Hs) as [Hd ->]. now split.
Qed.

Lemma makedirs_grows (p : Path) :
  forall files files' : FS,
    makedirs p files = inr files' ->
    (forall q n, node_at files q = Some n -> node_at files' q = Some n) /\
    (forall q, node_at files q = None -> is_Some (node_at files' q) ->
               node_at files' q = Some Dir /\ q `suffix_of` p).
Proof.
  induction p as [|t head IH]; intros files files' H;
    [now apply mkdir_exist_ok_grows_suffix |].
  cbn [makedirs] in H.
  destruct head as [|h hs]; [now apply mkdir_exist_ok_grows_suffix |].
  destruct (path_exists files (h :: hs));
    [now apply mkdir_exist_ok_grows_suffix |].
  destruct (makedirs (h :: hs) files) as [e|files1] eqn:E.
  - destruct e; try discriminate. now apply mkdir_exist_ok_grows_suffix.
  - destruct (IH files files1 E) as [Hkeep1 Hnew1].
    destruct (mkdir_exist_ok_grows_suffix files1 files' (t :: h :: hs) H)
      as [Hkeep2 Hnew2].
    split; [auto |].
    intros q Hq Hs. destruct (node_at files1 q) as [n|] eqn:Hq1.
    + destruct (Hnew1 q Hq) as [Hd Hsuf]; [rewrite Hq1; eauto |].
      split.
      * apply Hkeep2. congruence.
      * now apply suffix_cons_r.
    + now apply Hnew2.
Qed.

(** X8: [os.makedirs(p, exist_ok=True)], when it succeeds, keeps every
    entry of the filesystem as it was; what it adds are directories, each
    of them [p] or one of its ancestors. *)
Theorem makedirs_only_adds_directories (files files' : FS) (p : Path) :
  makedirs p files = inr files' ->
  (forall q n, node_at files q = Some n -> node_at files' q = Some n) /\
  (forall q, node_at files q = None -> is_Some (node_at files' q) ->
             node_at files' q = Some Dir /\ q `suffix_of` p).
Proof. apply makedirs_grows. Qed.

Lemma makedirs_only_adds_directories_witness :
  node_at (<[ ["S1"; "out"] := Dir ]> (<[ ["out"] := Dir ]> demo_fs))
    ["S1_R1.fastq.gz"; "in"] = Some File.
Proof.
  destruct (makedirs_only_adds_directories demo_fs
              (<[ ["S1"; "out"] := Dir ]> (<[ ["out"] := Dir ]> demo_fs))
              ["S1"; "out"]) as [Hkeep _].
  - by_evaluation.
  - apply Hkeep. by_evaluation.
Defined.

Lemma makedirs_file (files : FS) (p : Path) :
  wf_fs files -> node_at files p = Some File ->
  makedirs p files = inl FileExistsError.
Proof.
  intros Hwf Hp.
  assert (Hone : mkdir_exist_ok p files = inl FileExistsError).
  { unfold mkdir_exist_ok, mkdir, is_dir. now rewrite Hp. }
  destruct p as [|t [|h hs]]; cbn [makedirs]; try exact Hone.
  assert (Hhead : node_at files (h :: hs) = Some Dir)
    by (apply (Hwf (t :: h :: hs)); rewrite Hp; eauto).
  unfold path_exists. rewrite Hhead. exact Hone.
Qed.

(** ** BatchOrchestrator, continued *)

(** X9: when the output root exists as a regular file, the run raises
    [FileExistsError] at once: nothing is logged, nothing is scanned and no
    collaborator is called. *)
Theorem assemble_dir_out_dir_is_file
    (assembly_pipeline : Path -> Path -> Path -> string -> FS -> exn + FS)
    (clean_up : Path -> FS -> exn + FS)
    (input_dir out_dir : Path) (fwd_id rev_id : string) (w : world) :
  wf_fs (fs w) ->
  node_at (fs w) out_dir = Some File ->
  assemble_dir assembly_pipeline clean_up input_dir out_dir fwd_id rev_id w =
  Raised FileExistsError w.
Proof.
  intros Hwf Hout. rewrite assemble_dir_unfold.
  now rewrite (makedirs_file (fs w) out_dir Hwf Hout).
Qed.

Lemma assemble_dir_out_dir_is_file_witness :
  assemble_dir idle_pipeline idle_clean_up ["in"] ["out"] "_R1" "_R2"
    (World out_is_file_fs []) =
  Raised FileExistsError (World out_is_file_fs []).
Proof.
  apply assemble_dir_out_dir_is_file.
  - apply wf_fsb_sound. by_evaluation.
  - by_evaluation.
Defined.

Section OrchestratorRuns.

Variable assembly_pipeline : Path -> Path -> Path -> string -> FS -> exn + FS.
Variable clean_up : Path -> FS -> exn + FS.

(** The loop body on a sample that has a pair, step by step. *)
Lemma process_sample_paired (fastq_file_list : list Path) (out_dir : Path)
    (fwd_id rev_id sample_id : string) (r1 r2 : Path) (w : world) :
  readpair_scan sample_id fastq_file_list fwd_id rev_id = (Some r1, Some r2) ->
  process_sample assembly_pipeline clean_up fastq_file_list out_dir
    fwd_id rev_id sample_id w =
  let dir := joinpath out_dir sample_id in
  match makedirs dir (fs w) with
  | inl e => Raised e w
  | inr files1 =>
      let t1 := trace w ++ [PipelineCall r1 r2 dir sample_id] in
      match assembly_pipeline r1 r2 dir sample_id files1 with
      | inl e => Raised e (World files1 t1)
      | inr files2 =>
          let t2 := trace w ++ [PipelineCall r1 r2 dir sample_id; CleanUpCall dir] in
          match clean_up dir files2 with
          | inl e => Raised e (World files2 t2)
          | inr files3 => Returned tt (World files3 t2)
          end
      end
  end.
Proof.
  intros H. unfold process_sample, bind.
  rewrite (get_readpair_some _ _ _ _ _ _ w H). cbn [unpack_pair ret fst snd].
  unfold os_makedirs, call_assembly_pipeline, call_clean_up, on_fs, emit, bind.
  cbn zeta. destruct (makedirs (joinpath out_dir sample_id) (fs w)) as [e|files1];
    [reflexivity |].
  cbn [fs trace].
  destruct (assembly_pipeline r1 r2 (joinpath out_dir sample_id) sample_id files1)
    as [e|files2]; [reflexivity |].
  cbn [fs trace]. rewrite <- app_assoc. cbn [app].
  destruct (clean_up (joinpath out_dir sample_id) files2); reflexivity.
Qed.

(** X10: for a sample that has a pair, a failure of any later step is
    raised as it is.  When the directory cannot be made the pipeline is
    not called; when the pipeline fails, the directory stays and the
    clean-up is not called; when the clean-up fails both calls have been
    made. *)
Theorem process_sample_propagates_errors (fastq_file_list : list Path)
    (out_dir : Path) (fwd_id rev_id sample_id : string) (r1 r2 : Path)
    (w : world) :
  readpair_scan sample_id fastq_file_list fwd_id rev_id = (Some r1, Some r2) ->
  (forall e,
     makedirs (joinpath out_dir sample_id) (fs w) = inl e ->
     process_sample assembly_pipeline clean_up fastq_file_list out_dir
       fwd_id rev_id sample_id w = Raised e w) /\
  (forall files1 e,
     makedirs (joinpath out_dir sample_id) (fs w) = inr files1 ->
     assembly_pipeline r1 r2 (joinpath out_dir sample_id) sample_id files1 = inl e ->
     process_sample assembly_pipeline clean_up fastq_file_list out_dir
       fwd_id rev_id sample_id w =
     Raised e
       (World files1
          (trace w ++ [PipelineCall r1 r2 (joinpath out_dir sample_id) sample_id]))) /\
  (forall files1 files2 e,
     makedirs (joinpath out_dir sample_id) (fs w) = inr files1 ->
     assembly_pipeline r1 r2 (joinpath out_dir sample_id) sample_id files1 = inr files2 ->
     clean_up (joinpath out_dir sample_id) files2 = inl e ->
     process_sample assembly_pipeline clean_up fastq_file_list out_dir
       fwd_id rev_id sample_id w =
     Raised e
       (World files2
          (trace w ++ [PipelineCall r1 r2 (joinpath out_dir sample_id) sample_id;
                       CleanUpCall (joinpath out_dir sample_id)]))).
Proof.
  intros H. rewrite (process_sample_paired _ _ _ _ _ _ _ w H). cbn zeta.
  split; [|split].
  - intros e ->. reflexivity.
  - intros files1 e -> ->. reflexivity.
  - intros files1 files2 e -> -> ->. reflexivity.
Qed.

(** A returned turn of the loop had a pair and made its two calls. *)
Lemma process_sample_returned (fastq_file_list : list Path) (out_dir : Path)
    (fwd_id rev_id sample_id : string) (w w' : world) (u : unit) :
  process_sample assembly_pipeline clean_up fastq_file_list out_dir
    fwd_id rev_id sample_id w = Returned u w' ->
  (exists r1 r2,
     readpair_scan sample_id fastq_file_list fwd_id rev_id = (Some r1, Some r2)) /\
  trace w' =
  trace w ++ sample_events fastq_file_list out_dir fwd_id rev_id sample_id.
Proof.
  destruct (readpair_scan sample_id fastq_file_list fwd_id rev_id)
    as [o1 o2] eqn:E.
  destruct o1 as [r1|]; [destruct o2 as [r2|] |].
  - rewrite (process_sample_paired _ _ _ _ _ _ _ w E). cbn zeta.
    unfold sample_events. rewrite E.
    destruct (makedirs (joinpath out_dir sample_id) (fs w)) as [e|files1];
      [discriminate |].
    destruct (assembly_pipeline r1 r2 (joinpath out_dir sample_id) sample_id files1)
      as [e|files2]; [discriminate |].
    destruct (clean_up (joinpath out_dir sample_id) files2); [discriminate |].
    intros Hret. injection Hret as _ <-.
    split; [now exists r1, r2 | reflexivity].
  - rewrite process_sample_unpaired by (right; now rewrite E). discriminate.
  - rewrite process_sample_unpaired by (left; now rewrite E). discriminate.
Qed.

Lemma for_each_app {A} (xs ys : list A) (body : A -> M unit) (w : world) :
  for_each (xs ++ ys) body w =
  match for_each xs body w with
  | Returned _ w1 => for_each ys body w1
  | Raised e w1 => Raised e w1
  end.
Proof.
  revert w. induction xs as [|x xs IH]; intros w; [reflexivity |].
  cbn [app for_each]. unfold bind. destruct (body x w); [apply IH | reflexivity].
Qed.

Lemma for_each_returned (fastq_file_list : list Path) (out_dir : Path)
    (fwd_id rev_id : string) (ids : list string) :
  forall (w w' : world) (u : unit),
    for_each ids
      (process_sample assembly_pipeline clean_up fastq_file_list out_dir
         fwd_id rev_id) w = Returned u w' ->
    (forall sample_id, In sample_id ids ->
       exists r1 r2,
         readpair_scan sample_id fastq_file_list fwd_id rev_id = (Some r1, Some r2)) /\
    trace w' =
    trace w ++ flat_map (sample_events fastq_file_list out_dir fwd_id rev_id) ids.
Proof.
  induction ids as [|sid ids IH]; intros w w' u H.
  - cbn in H. injection H as _ <-. split; [intros ? [] |].
    cbn [flat_map]. now rewrite app_nil_r.
  - cbn [for_each] in H. unfold bind in H.
    destruct (process_sample assembly_pipeline clean_up fastq_file_list out_dir
                fwd_id rev_id sid w) as [u1 w1|e w1] eqn:E; [|discriminate].
    apply process_sample_returned in E as [Hpair Ht1].
    apply IH in H as [Hpairs Ht]. split.
    + intros s [<-|Hin]; auto.
    + rewrite Ht, Ht1. cbn [flat_map]. now rewrite app_assoc.
Qed.

(** X11: the first sample whose turn raises ends the run with that
    exception, in the state reached at that point: what was done for the
    samples before it stays, the samples after it are not processed, and
    the closing line is not logged. *)
Theorem assemble_dir_fail_fast (input_dir out_dir : Path) (fwd_id rev_id : string)
    (w : world) (files : FS) (before after : list string) (sample_id : string)
    (w1 w2 : world) (e : exn) :
  makedirs out_dir (fs w) = inr files ->
  retrieve_sampleids (retrieve_fastqgz files input_dir) =
    before ++ sample_id :: after ->
  for_each before
    (process_sample assembly_pipeline clean_up
       (retrieve_fastqgz files input_dir) out_dir fwd_id rev_id)
    (World files
       (trace w ++ preamble input_dir out_dir (length (before ++ sample_id :: after))))
    = Returned tt w1 ->
  process_sample assembly_pipeline clean_up
    (retrieve_fastqgz files input_dir) out_dir fwd_id rev_id sample_id w1
    = Raised e w2 ->
  assemble_dir assembly_pipeline clean_up input_dir out_dir fwd_id rev_id w =
  Raised e w2.
Proof.
  intros Hout Hids Hbefore Hraise.
  rewrite assemble_dir_unfold, Hout. cbn zeta. rewrite Hids.
  rewrite for_each_app, Hbefore. cbn [for_each]. unfold bind.
  now rewrite Hraise.
Qed.

(** X12: a completed run made the output root, logged the four opening
    lines, then for every sample identifier in turn called the pipeline
    and the clean-up, once each, on the sample's own directory and with a
    valid pair found in the file list scanned before the loop, and logged
    the closing line; every sample had such a pair. *)
Theorem assemble_dir_completed (input_dir out_dir : Path) (fwd_id rev_id : string)
    (w w' : world) (u : unit) :
  assemble_dir assembly_pipeline clean_up input_dir out_dir fwd_id rev_id w =
    Returned u w' ->
  completed_run input_dir out_dir fwd_id rev_id w w'.
Proof.
  rewrite assemble_dir_unfold.
  destruct (makedirs out_dir (fs w)) as [e|files] eqn:Hout; [discriminate |].
  cbn zeta.
  destruct (for_each _ _ _) as [u1 w1|e w1] eqn:Hloop; [|discriminate].
  intros Hret. injection Hret as _ <-.
  apply for_each_returned in Hloop as [Hpairs Ht].
  exists files. split; [exact Hout | split].
  - cbn [trace] in *. rewrite Ht. now rewrite <- !app_assoc.
  - intros sid Hin. destruct (Hpairs sid Hin) as (r1 & r2 & H).
    exists r1, r2. split; [assumption | now apply readpair_scan_valid].
Qed.

(** X13: when no entry of the input directory matches, the run makes the
    output root, reports zero samples, calls no collaborator and
    completes. *)
Theorem assemble_dir_no_reads (input_dir out_dir : Path) (fwd_id rev_id : string)
    (w : world) (files : FS) :
  makedirs out_dir (fs w) = inr files ->
  retrieve_fastqgz files input_dir = [] ->
  assemble_dir assembly_pipeline clean_up input_dir out_dir fwd_id rev_id w =
  Returned tt
    (World files (trace w ++ preamble input_dir out_dir 0
                          ++ [Info (PipelineComplete out_dir)])).
Proof.
  intros Hout Hscan. rewrite assemble_dir_unfold, Hout. cbn zeta.
  rewrite Hscan, retrieve_sampleids_nil. cbn [for_each ret length fs trace].
  now rewrite <- app_assoc.
Qed.

End OrchestratorRuns.

Lemma process_sample_propagates_errors_witness :
  process_sample failing_pipeline idle_clean_up
    [ ["S1_R1.fq"; "in"]; ["S1_R2.fq"; "in"] ] ["out"] "_R1" "_R2" "S1"
    (World (<[ ["out"] := Dir ]> paired_fs) []) =
  Raised (ExternalError "assembly failed")
    (World (<[ ["S1"; "out"] := Dir ]> (<[ ["out"] := Dir ]> paired_fs))
       [ PipelineCall ["S1_R1.fq"; "in"] ["S1_R2.fq"; "in"] ["S1"; "out"] "S1" ]).
Proof.
  destruct (process_sample_propagates_errors failing_pipeline idle_clean_up
              [ ["S1_R1.fq"; "in"]; ["S1_R2.fq"; "in"] ] ["out"] "_R1" "_R2" "S1"
              ["S1_R1.fq"; "in"] ["S1_R2.fq"; "in"]
              (World (<[ ["out"] := Dir ]> paired_fs) []))
    as (_ & Hpipeline & _); [reflexivity |].
  apply (Hpipeline (<[ ["S1"; "out"] := Dir ]> (<[ ["out"] := Dir ]> paired_fs))).
  - by_evaluation.
  - reflexivity.
Defined.

Lemma assemble_dir_fail_fast_witness :
  assemble_dir idle_pipeline idle_clean_up ["in"] ["out"] "_R1" "_R2"
    (World demo_fs []) =
  Raised TypeError
    (World (<[ ["S1"; "out"] := Dir ]> (<[ ["out"] := Dir ]> demo_fs))
       (preamble ["in"] ["out"] 2 ++
        [ PipelineCall ["S1_R1.fastq.gz"; "in"] ["S1_R2.fastq.gz"; "in"]
            ["S1"; "out"] "S1";
          CleanUpCall ["S1"; "out"];
          Info (CouldNotPair "S2") ])).
Proof.
  apply (assemble_dir_fail_fast idle_pipeline idle_clean_up
           ["in"] ["out"] "_R1" "_R2" (World demo_fs [])
           (<[ ["out"] := Dir ]> demo_fs) ["S1"] [] "S2"
           (World (<[ ["S1"; "out"] := Dir ]> (<[ ["out"] := Dir ]> demo_fs))
              (preamble ["in"] ["out"] 2 ++
               [ PipelineCall ["S1_R1.fastq.gz"; "in"] ["S1_R2.fastq.gz"; "in"]
                   ["S1"; "out"] "S1";
                 CleanUpCall ["S1"; "out"] ]))).
  - by_evaluation.
  - by_evaluation.
  - by_evaluation.
  - by_evaluation.
Defined.

Lemma assemble_dir_completed_witness :
  completed_run ["in"] ["out"] "_R1" "_R2" (World paired_fs [])
    (World (<[ ["S1"; "out"] := Dir ]> (<[ ["out"] := Dir ]> paired_fs))
       (preamble ["in"] ["out"] 1 ++
        [ PipelineCall ["S1_R1.fq"; "in"] ["S1_R2.fq"; "in"] ["S1"; "out"] "S1";
          CleanUpCall ["S1"; "out"];
          Info (PipelineComplete ["out"]) ])).
Proof.
  apply (assemble_dir_completed idle_pipeline idle_clean_up
           ["in"] ["out"] "_R1" "_R2" (World paired_fs []) _ tt).
  by_evaluation.
Defined.

Lemma assemble_dir_no_reads_witness :
  assemble_dir idle_pipeline idle_clean_up ["in"] ["out"] "_R1" "_R2"
    (World no_reads_fs []) =
  Returned tt
    (World (<[ ["out"] := Dir ]> no_reads_fs)
       (preamble ["in"] ["out"] 0 ++ [Info (PipelineComplete ["out"])])).
Proof.
  apply (assemble_dir_no_reads idle_pipeline idle_clean_up
           ["in"] ["out"] "_R1" "_R2" (World no_reads_fs [])).
  - by_evaluation.
  - by_evaluation.
Defined.

(** X14: two different sample identifiers get two different output
    directories, unless both are among the empty string and [.], which
    [out_dir / sample_id] both send to the output root itself. *)
Theorem sample_out_dir_distinct (out_dir : Path) (s1 s2 : string) :
  joinpath out_dir s1 = joinpath out_dir s2 ->
  s1 = s2 \/
  ((s1 = EmptyString \/ s1 = ".") /\ (s2 = EmptyString \/ s2 = ".") /\
   joinpath out_dir s1 = out_dir).
Proof.
  assert (Hroot : forall s,
    String.eqb s EmptyString || String.eqb s "." = true ->
    s = EmptyString \/ s = ".").
  { intros s H. apply orb_true_iff in H as [H|H];
      apply String.eqb_eq in H; auto. }
  assert (Hgrow : forall s : string, s :: out_dir <> out_dir).
  { intros s H. apply (f_equal (@length string)) in H. cbn in H. lia. }
  unfold joinpath.
  destruct (String.eqb s1 EmptyString || String.eqb s1 ".") eqn:E1,
           (String.eqb s2 EmptyString || String.eqb s2 ".") eqn:E2; intros H.
  - right. auto.
  - symmetry in H. now apply Hgrow in H.
  - now apply Hgrow in H.
  - left. congruence.
Qed.

Lemma sample_out_dir_distinct_witness :
  joinpath ["out"] EmptyString = joinpath ["out"] "." /\
  joinpath ["out"] EmptyString = ["out"].
Proof.
  split; [reflexivity |].
  destruct (sample_out_dir_distinct ["out"] EmptyString "." eq_refl)
    as [H|(_ & _ & H)]; [discriminate H | exact H].
Defined.
